(** * evilwm: client management (client.c)

    A shallow embedding of the client-management functions of evilwm and
    the properties its specification states about them.

    Conventions of the embedding:
    - a C [int] is a [Z] in the range [-2^31, 2^31); arithmetic on it
      wraps around ([wrap]);
    - [unsigned], [long], [Window], [Colormap] and pixel values are [Z];
    - a [struct client *] is a [ptr] into the [heap] of the window
      manager state, a nullable one is an [option ptr];
    - [c->screen] is only read by client.c, so it is embedded as the
      [screen] record it points to;
    - a call into Xlib or ewmh.c is appended to the request log of the
      state, together with the value [ignore_xerror] had when it was
      issued. *)

From stdpp Require Import base option list gmap.
From Stdlib Require Import Ascii String.
From stdpp Require Import strings pretty.

Local Open Scope Z_scope.

(** ** C integers *)

Module Int.

Definition min_signed : Z := - 2 ^ 31.
Definition max_signed : Z := 2 ^ 31 - 1.
Definition modulus : Z := 2 ^ 32.

Definition in_range (z : Z) : Prop := min_signed <= z <= max_signed.

(** Two's complement reduction of a mathematical integer to an [int]. *)
Definition wrap (z : Z) : Z := (z + 2 ^ 31) mod modulus - 2 ^ 31.

Definition add (a b : Z) : Z := wrap (a + b).
Definition sub (a b : Z) : Z := wrap (a - b).
Definition neg (a : Z) : Z := wrap (- a).
(** C division truncates towards zero. *)
Definition div (a b : Z) : Z := wrap (a ÷ b).

(** Conversion of an [int] to [unsigned]. *)
Definition to_unsigned (a : Z) : Z := a mod modulus.

End Int.

(** ** Constants of <X11/X.h> and <X11/Xutil.h> *)

Definition ForgetGravity : Z := 0.
Definition NorthWestGravity : Z := 1.
Definition NorthGravity : Z := 2.
Definition NorthEastGravity : Z := 3.
Definition WestGravity : Z := 4.
Definition CenterGravity : Z := 5.
Definition EastGravity : Z := 6.
Definition SouthWestGravity : Z := 7.
Definition SouthGravity : Z := 8.
Definition SouthEastGravity : Z := 9.
Definition StaticGravity : Z := 10.

Definition PMinSize : Z := Z.shiftl 1 4.
Definition PMaxSize : Z := Z.shiftl 1 5.
Definition PResizeInc : Z := Z.shiftl 1 6.
Definition PBaseSize : Z := Z.shiftl 1 8.
Definition PWinGravity : Z := Z.shiftl 1 9.

Definition WithdrawnState : Z := 0.
Definition NormalState : Z := 1.
Definition IconicState : Z := 3.

Definition None_ : Z := 0.
Definition PointerRoot : Z := 1.
Definition RevertToPointerRoot : Z := 1.
Definition CurrentTime : Z := 0.
Definition False_ : Z := 0.

(** ** Data *)

Definition Window := Z.
Definition ptr := positive.

(** [struct monitor]: a rectangle of the screen. *)
Record monitor := Monitor {
  m_x : Z;
  m_y : Z;
  m_width : Z;
  m_height : Z
}.

(** [struct screen], the fields client.c reads.  [monitors] is the array
    [s->monitors] with its [s->nmonitors] entries.  [fg], [bg] and [fc] are the
    pixels of the active, inactive and fixed colours. *)
Record screen := Screen {
  s_screen : Z;
  root : Window;
  fg : Z;
  bg : Z;
  fc : Z;
  s_vdesk : Z;
  monitors : list monitor
}.

(** [struct client]. *)
Record client := Client {
  window : Window;
  parent : Window;
  c_screen : screen;
  x : Z;
  y : Z;
  width : Z;
  height : Z;
  border : Z;
  old_border : Z;
  min_width : Z;
  min_height : Z;
  max_width : Z;
  max_height : Z;
  base_width : Z;
  base_height : Z;
  width_inc : Z;
  height_inc : Z;
  win_gravity_hint : Z;
  win_gravity : Z;
  cmap : Z;
  vdesk : Z;
  is_dock : Z;
  ignore_unmap : Z;
  remove : Z
}.

Definition set_x (v : Z) (c : client) : client :=
  Client (window c) (parent c) (c_screen c) v (y c) (width c) (height c)
    (border c) (old_border c) (min_width c) (min_height c) (max_width c)
    (max_height c) (base_width c) (base_height c) (width_inc c) (height_inc c)
    (win_gravity_hint c) (win_gravity c) (cmap c) (vdesk c) (is_dock c)
    (ignore_unmap c) (remove c).

Definition set_y (v : Z) (c : client) : client :=
  Client (window c) (parent c) (c_screen c) (x c) v (width c) (height c)
    (border c) (old_border c) (min_width c) (min_height c) (max_width c)
    (max_height c) (base_width c) (base_height c) (width_inc c) (height_inc c)
    (win_gravity_hint c) (win_gravity c) (cmap c) (vdesk c) (is_dock c)
    (ignore_unmap c) (remove c).

Definition set_vdesk (v : Z) (c : client) : client :=
  Client (window c) (parent c) (c_screen c) (x c) (y c) (width c) (height c)
    (border c) (old_border c) (min_width c) (min_height c) (max_width c)
    (max_height c) (base_width c) (base_height c) (width_inc c) (height_inc c)
    (win_gravity_hint c) (win_gravity c) (cmap c) v (is_dock c)
    (ignore_unmap c) (remove c).

Definition set_ignore_unmap (v : Z) (c : client) : client :=
  Client (window c) (parent c) (c_screen c) (x c) (y c) (width c) (height c)
    (border c) (old_border c) (min_width c) (min_height c) (max_width c)
    (max_height c) (base_width c) (base_height c) (width_inc c) (height_inc c)
    (win_gravity_hint c) (win_gravity c) (cmap c) (vdesk c) (is_dock c)
    v (remove c).

(** The fields [get_wm_normal_hints] assigns, in the order of [struct
    client]: min, max, base, increment, gravity hint and gravity. *)
Definition set_hints (minw minh maxw maxh basew baseh winc hinc gh g : Z)
    (c : client) : client :=
  Client (window c) (parent c) (c_screen c) (x c) (y c) (width c) (height c)
    (border c) (old_border c) minw minh maxw maxh basew baseh winc hinc
    gh g (cmap c) (vdesk c) (is_dock c) (ignore_unmap c) (remove c).

(** [XSizeHints] as Xlib returns it, the fields client.c reads. *)
Record XSizeHints := SizeHints {
  sh_flags : Z;
  sh_min_width : Z;
  sh_min_height : Z;
  sh_max_width : Z;
  sh_max_height : Z;
  sh_width_inc : Z;
  sh_height_inc : Z;
  sh_base_width : Z;
  sh_base_height : Z;
  sh_win_gravity : Z
}.

(** ** get_wm_normal_hints *)

(** The C test [flags & bit]. *)
Definition has_flag (flags bit : Z) : bool := negb (Z.land flags bit =? 0).

(** [size] is what [XGetWMNormalHints] stored; the result is the returned
    hint flags and the client as the function leaves it. *)
Definition get_wm_normal_hints (size : XSizeHints) (c : client) : Z * client :=
  let flags := sh_flags size in
  let min_width1 := if has_flag flags PMinSize then sh_min_width size else 0 in
  let min_height1 := if has_flag flags PMinSize then sh_min_height size else 0 in
  let max_width' := if has_flag flags PMaxSize then sh_max_width size else 0 in
  let max_height' := if has_flag flags PMaxSize then sh_max_height size else 0 in
  let base_width' :=
    if has_flag flags PBaseSize then sh_base_width size else min_width1 in
  let base_height' :=
    if has_flag flags PBaseSize then sh_base_height size else min_height1 in
  let width_inc' :=
    if has_flag flags PResizeInc
    then (if sh_width_inc size =? 0 then 1 else sh_width_inc size) else 1 in
  let height_inc' :=
    if has_flag flags PResizeInc
    then (if sh_height_inc size =? 0 then 1 else sh_height_inc size) else 1 in
  let min_width' :=
    if negb (has_flag flags PMinSize)
    then Int.add base_width' width_inc' else min_width1 in
  let min_height' :=
    if negb (has_flag flags PMinSize)
    then Int.add base_height' height_inc' else min_height1 in
  let win_gravity_hint' :=
    if has_flag flags PWinGravity then sh_win_gravity size
    else NorthWestGravity in
  (flags,
   set_hints min_width' min_height' max_width' max_height'
     base_width' base_height' width_inc' height_inc'
     win_gravity_hint' win_gravity_hint' c).

(** ** client_monitor *)

(** The test of lines 140-141 for the point [(midx, midy)] and monitor [m]. *)
Definition is_inside (midx midy : Z) (m : monitor) : bool :=
  ((m_x m <=? midx) && (midx <? Int.add (m_x m) (m_width m)))
  && ((m_y m <=? midy) && (midy <? Int.add (m_y m) (m_height m))).

(** The [for] loop over the monitors still to visit, [i] being the index of
    the first of them; [best] is the index of the chosen monitor. *)
Fixpoint client_monitor_loop (midx midy : Z) (ms : list monitor) (i : nat)
    (was_inside : bool) (best : option nat) : option nat :=
  match ms with
  | [] => best
  | m :: ms' =>
      if is_inside midx midy m && negb was_inside
      then client_monitor_loop midx midy ms' (S i) true (Some i)
      else client_monitor_loop midx midy ms' (S i) was_inside best
  end.

Definition midx_of (c : client) : Z := Int.add (x c) (Int.div (width c) 2).
Definition midy_of (c : client) : Z := Int.add (y c) (Int.div (height c) 2).

(** The result is the index into [c->screen->monitors] of the monitor the
    returned pointer designates. *)
Definition client_monitor (c : client) : nat :=
  match client_monitor_loop (midx_of c) (midy_of c) (monitors (c_screen c))
          0%nat false None with
  | Some i => i
  | None => 0%nat
  end.

(** ** The window manager state *)

(** Requests to the X server and calls into ewmh.c, with their arguments
    (the [Display *] argument is left out).  A client is passed to ewmh.c
    as its pointer, a screen as its screen number. *)
Inductive request :=
  | XGrabServer
  | XUngrabServer
  | XSync (discard : Z)
  | XSetInputFocus (focus : Window) (revert_to time : Z)
  | XSetWindowBorder (w : Window) (border_pixel : Z)
  | XInstallColormap (colormap : Z)
  | XMapWindow (w : Window)
  | XUnmapWindow (w : Window)
  | XChangeProperty_WM_STATE (w : Window) (data : list Z)
  | XReparentWindow (w p : Window) (rx ry : Z)
  | XSetWindowBorderWidth (w : Window) (bw : Z)
  | XRemoveFromSaveSet (w : Window)
  | XDestroyWindow (w : Window)
  | ewmh_set_net_wm_state (c : ptr)
  | ewmh_set_net_wm_desktop (c : ptr)
  | ewmh_withdraw_client (c : ptr)
  | ewmh_remove_allowed_actions (c : ptr)
  | ewmh_set_net_client_list (s : Z)
  | ewmh_set_net_client_list_stacking (s : Z).

(** The globals of client.c, the allocated clients, the flag
    [ignore_xerror] the X error handler consults, and the log of requests:
    each entry is the value of [ignore_xerror] at the time of the request
    and the request. *)
Record wm := Wm {
  heap : gmap ptr client;
  clients_tab_order : list ptr;
  clients_mapping_order : list ptr;
  clients_stacking_order : list ptr;
  current : option ptr;
  ignore_xerror : Z;
  xlog : list (Z * request)
}.

Definition set_heap (h : gmap ptr client) (s : wm) : wm :=
  Wm h (clients_tab_order s) (clients_mapping_order s)
    (clients_stacking_order s) (current s) (ignore_xerror s) (xlog s).

Definition set_lists (t m k : list ptr) (s : wm) : wm :=
  Wm (heap s) t m k (current s) (ignore_xerror s) (xlog s).

Definition set_current (c : option ptr) (s : wm) : wm :=
  Wm (heap s) (clients_tab_order s) (clients_mapping_order s)
    (clients_stacking_order s) c (ignore_xerror s) (xlog s).

Definition set_ignore_xerror (v : Z) (s : wm) : wm :=
  Wm (heap s) (clients_tab_order s) (clients_mapping_order s)
    (clients_stacking_order s) (current s) v (xlog s).

Definition set_xlog (l : list (Z * request)) (s : wm) : wm :=
  Wm (heap s) (clients_tab_order s) (clients_mapping_order s)
    (clients_stacking_order s) (current s) (ignore_xerror s) l.

(** State and error monad: [None] is the dereference of a pointer that is
    not an allocated client. *)
Definition M (A : Type) : Type := wm → option (A * wm).

#[global] Instance M_ret : MRet M := λ A a s, Some (a, s).

#[global] Instance M_bind : MBind M := λ A B f m s,
  match m s with
  | Some (a, s') => f a s'
  | None => None
  end.

Definition gets {A} (f : wm → A) : M A := λ s, Some (f s, s).
Definition modify (f : wm → wm) : M unit := λ s, Some (tt, f s).

(** Read [*p]. *)
Definition load (p : ptr) : M client := λ s,
  match heap s !! p with
  | Some c => Some (c, s)
  | None => None
  end.

(** Update [*p] by [f]. *)
Definition on_client (p : ptr) (f : client → client) : M unit :=
  c ← load p; modify (λ s, set_heap (<[p := f c]> (heap s)) s).

(** [free(p)]. *)
Definition free (p : ptr) : M unit :=
  modify (λ s, set_heap (delete p (heap s)) s).

(** Issue a request. *)
Definition call (r : request) : M unit :=
  modify (λ s, set_xlog (xlog s ++ [(ignore_xerror s, r)]) s).

Definition when (b : bool) (m : M unit) : M unit := if b then m else mret tt.

(** Modelled from the spec: [list_delete] of list.c, which is not among
    the sources.  "Unlink the client" from a registry list; "`remove`
    leaves it in none". *)
Definition list_delete (l : list ptr) (p : ptr) : list ptr :=
  filter (λ q, q ≠ p) l.

(** ** find_client *)

(** The [for] loop over the list elements still to visit. *)
Fixpoint find_client_loop (w : Window) (iter : list ptr) : M (option ptr) :=
  match iter with
  | [] => mret None
  | p :: iter' =>
      c ← load p;
      if (w =? parent c) || (w =? window c) then mret (Some p)
      else find_client_loop w iter'
  end.

Definition find_client (w : Window) : M (option ptr) :=
  iter ← gets clients_tab_order;
  find_client_loop w iter.

(** ** send_wm_delete *)

Definition NoEventMask : Z := 0.

(** The atoms [X_ATOM(WM_PROTOCOLS)] and [X_ATOM(WM_DELETE_WINDOW)] of the
    display. *)
Record atoms := Atoms {
  WM_PROTOCOLS : Z;
  WM_DELETE_WINDOW : Z
}.

(** The request [send_wm_delete] ends with: [XSendEvent] of a
    [ClientMessage] event ([w], [propagate], [event_mask], then the
    event's window, message type, format, [data.l[0]] and [data.l[1]]), or
    [XKillClient]. *)
Inductive close_request :=
  | XSendEvent_ClientMessage (w : Window) (propagate event_mask : Z)
      (ev_window : Window) (message_type format data0 data1 : Z)
  | XKillClient (w : Window).

Definition send_xmessage (w : Window) (a x : Z) : close_request :=
  XSendEvent_ClientMessage w False_ NoEventMask w a 32 x CurrentTime.

(** The loop counting the entries of [protocols] equal to [atom]. *)
Fixpoint count_protocol (atom : Z) (protocols : list Z) (found : Z) : Z :=
  match protocols with
  | [] => found
  | a :: rest =>
      count_protocol atom rest (if a =? atom then Int.add found 1 else found)
  end.

(** [protocols] is what [XGetWMProtocols] returns when it is called:
    [None] for a zero status, the list of atoms otherwise. *)
Definition send_wm_delete (X : atoms) (protocols : option (list Z))
    (c : client) (kill_client : Z) : close_request :=
  let found :=
    if kill_client =? 0 then
      match protocols with
      | Some l => count_protocol (WM_DELETE_WINDOW X) l 0
      | None => 0
      end
    else 0 in
  if negb (found =? 0)
  then send_xmessage (window c) (WM_PROTOCOLS X) (WM_DELETE_WINDOW X)
  else XKillClient (window c).

(** The state the [WM_STATE] property of window [w] was last given by the
    requests of [l]. *)
Fixpoint wm_state_of (l : list (Z * request)) (w : Window) : option Z :=
  match l with
  | [] => None
  | (_, XChangeProperty_WM_STATE w' data) :: l' =>
      match wm_state_of l' w with
      | Some later => Some later
      | None => if w' =? w then head data else None
      end
  | _ :: l' => wm_state_of l' w
  end.

(** The requests that change the input focus, and those that publish the
    client lists. *)
Definition is_focus_request (r : request) : bool :=
  match r with
  | XSetInputFocus _ _ _ => true
  | _ => false
  end.

Definition is_client_list_request (r : request) : bool :=
  match r with
  | ewmh_set_net_client_list _ | ewmh_set_net_client_list_stacking _ => true
  | _ => false
  end.

Definition is_wm_state_request (r : request) : bool :=
  match r with
  | XChangeProperty_WM_STATE _ _ => true
  | _ => false
  end.

Definition is_grab_request (r : request) : bool :=
  match r with
  | XGrabServer | XUngrabServer => true
  | _ => false
  end.

(** The entries of a log whose request satisfies [f]. *)
Definition select_entries (f : request → bool) (l : list (Z * request)) :
    list (Z * request) :=
  filter (λ e, f e.2 = true) l.

(** ** Well-formed registries *)

(** [w] is the window or the frame of the client at [p]. *)
Definition has_handle (s : wm) (w : Window) (p : ptr) : bool :=
  match heap s !! p with
  | Some c => (w =? parent c) || (w =? window c)
  | None => false
  end.

(** Every client of the tab-order list is allocated. *)
Definition tab_order_allocated (s : wm) : Prop :=
  Forall (λ p, is_Some (heap s !! p)) (clients_tab_order s).

(** The window and frame handles of different clients of the tab-order
    list differ. *)
Definition handles_distinct (s : wm) : Prop :=
  ∀ i j p q cp cq,
    clients_tab_order s !! i = Some p → clients_tab_order s !! j = Some q →
    heap s !! p = Some cp → heap s !! q = Some cq → i ≠ j →
    window cp ≠ window cq ∧ window cp ≠ parent cq ∧
    parent cp ≠ window cq ∧ parent cp ≠ parent cq.

(** Every [WM_STATE] property written so far holds two values, the second
    being [None]. *)
Definition wm_state_two_values (l : list (Z * request)) : Prop :=
  ∀ ign w data, (ign, XChangeProperty_WM_STATE w data) ∈ l →
    ∃ state, data = [state; None_].

(** ** parse_modifiers (main.c) *)

Definition ShiftMask : Z := Z.shiftl 1 0.
Definition LockMask : Z := Z.shiftl 1 1.
Definition ControlMask : Z := Z.shiftl 1 2.
Definition Mod1Mask : Z := Z.shiftl 1 3.
Definition Mod2Mask : Z := Z.shiftl 1 4.
Definition Mod3Mask : Z := Z.shiftl 1 5.
Definition Mod4Mask : Z := Z.shiftl 1 6.
Definition Mod5Mask : Z := Z.shiftl 1 7.

(** The table [modifiers[9]]. *)
Definition modifiers : list (string * Z) :=
  [("shift", ShiftMask); ("lock", LockMask); ("control", ControlMask);
   ("alt", Mod1Mask); ("mod1", Mod1Mask); ("mod2", Mod2Mask);
   ("mod3", Mod3Mask); ("mod4", Mod4Mask); ("mod5", Mod5Mask)]%string.

(** The delimiters [",+"] given to [strtok]. *)
Definition is_delim (a : Ascii.ascii) : bool :=
  Ascii.eqb a ","%char || Ascii.eqb a "+"%char.

(** The tokens that [strtok(s, ",+")] and then [strtok(NULL, ",+")] return
    until the first [NULL]: the maximal runs of characters that are no
    delimiters.  [acc] is the part of the current token already read. *)
Fixpoint strtok_tokens (acc s : string) : list string :=
  match s with
  | EmptyString => if String.eqb acc "" then [] else [acc]
  | String a s' =>
      if is_delim a
      then (if String.eqb acc "" then [] else [acc]) ++ strtok_tokens "" s'
      else strtok_tokens (acc +:+ String a "") s'
  end.

(** The [for] loop over the table, for the token [tmp]. *)
Definition add_modifiers (tmp : string) (ret : Z) : Z :=
  foldl (λ ret m, if String.eqb m.1 tmp then Z.lor ret m.2 else ret)
    ret modifiers.

Definition parse_modifiers (s : string) : Z :=
  foldl (λ ret tmp, add_modifiers tmp ret) 0 (strtok_tokens "" s).

(** ** The information window of client.c (INFOBANNER) *)

(** [display.font]: the width [XTextWidth] gives a string, and the ascent
    and descent of [max_bounds]. *)
Record font_info := FontInfo {
  XTextWidth : string → Z;
  ascent : Z;
  descent : Z
}.

Inductive info_request :=
  | XMoveResizeWindow (w : Window) (ix iy iw ih : Z)
  | XClearWindow (w : Window)
  | XDrawString (w : Window) (dx dy : Z) (str : string) (len : Z).

(** [snprintf(buf, sizeof(buf), "%dx%d+%d+%d", a, b, cx, cy)] with
    [char buf[27]]: at most 26 characters are kept. *)
Definition info_text (a b cx cy : Z) : string :=
  String.substring 0 26
    (pretty a +:+ "x" +:+ pretty b +:+ "+" +:+ pretty cx +:+ "+" +:+ pretty cy).

(** C division: not defined for a zero divisor. *)
Definition int_div_checked (a b : Z) : option Z :=
  if b =? 0 then None else Some (Int.div a b).

Definition strlen (s : string) : Z := Z.of_nat (String.length s).

(** ** A concrete display

    A display of 1024 by 768 with eight virtual desktops and three
    monitors side by side, and a few clients on it; the statements below
    are instantiated on them. *)

Definition width_1024 : Z → Z := λ _, 1024.
Definition height_768 : Z → Z := λ _, 768.
Definition fixed_ffffffff : Z := 4294967295.
Definition eight_vdesks (v : Z) : bool := (v =? fixed_ffffffff) || (v <? 8).

Definition three_monitors : list monitor :=
  [Monitor 0 0 100 100; Monitor 100 0 100 100; Monitor 200 0 100 100].

(** Screen 0: root window 1, colours 11, 12 and 13 for active, inactive
    and fixed, current desktop 2. *)
Definition screen_0 : screen := Screen 0 1 11 12 13 2 three_monitors.

(** A client of [screen_0] with North-West hints and no size limits. *)
Definition mk_client (w p cx cy cw ch b ob g vd rm : Z) : client :=
  Client w p screen_0 cx cy cw ch b ob 0 0 0 0 0 0 1 1 g g 0 vd 0 0 rm.

(** Border 2, original border 1, south-east gravity, geometry
    (10,10,50,50), on desktop 2, being withdrawn. *)
Definition client_se : client :=
  mk_client 100 101 10 10 50 50 2 1 SouthEastGravity 2 1.

(** A second client, on desktop 3, fixed or not. *)
Definition client_nw : client :=
  mk_client 200 201 300 40 80 60 1 0 NorthWestGravity 3 1.

(** Centered at x = 150, at x = 500, and at x = 100, the edge shared by
    the first two monitors. *)
Definition client_mid_150 : client :=
  mk_client 300 301 125 20 50 50 1 0 NorthWestGravity 0 1.
Definition client_mid_500 : client :=
  mk_client 400 401 475 20 50 50 1 0 NorthWestGravity 0 1.
Definition client_mid_100 : client :=
  mk_client 500 501 75 20 50 50 1 0 NorthWestGravity 0 1.

(** Two clients, [client_se] at pointer 1 and [client_nw] at pointer 2,
    none selected, errors not ignored, nothing requested yet. *)
Definition wm_two : wm :=
  Wm (<[1%positive := client_se]> (<[2%positive := client_nw]> ∅))
     [1%positive; 2%positive] [1%positive; 2%positive]
     [1%positive; 2%positive] None 0 [].

(** Hints with nothing set, and hints with a minimum of 100x100 above a
    maximum of 50x50. *)
Definition hints_none : XSizeHints := SizeHints 0 0 0 0 0 0 0 0 0 0.
Definition hints_min_above_max : XSizeHints :=
  SizeHints (Z.lor PMinSize PMaxSize) 100 100 50 50 0 0 0 0 0.

(** [wm_two] with client 1 selected. *)
Definition wm_two_selected : wm :=
  Wm (<[1%positive := client_se]> (<[2%positive := client_nw]> ∅))
     [1%positive; 2%positive] [1%positive; 2%positive]
     [1%positive; 2%positive] (Some 1%positive) 0 [].

(** [client_se] when the window manager is quitting, and a state holding
    it. *)
Definition client_quit : client :=
  mk_client 100 101 10 10 50 50 2 1 SouthEastGravity 2 0.

Definition wm_quit : wm :=
  Wm (<[1%positive := client_quit]> ∅) [1%positive] [1%positive]
     [1%positive] None 0 [].

(** A client that spans the display in both directions. *)
Definition client_max : client :=
  mk_client 600 601 0 0 1024 768 1 0 NorthWestGravity 0 1.

(** Atoms, a fixed-width font of 6 by 13 pixels, and hints with a zero
    width increment. *)
Definition atoms_0 : atoms := Atoms 300 301.

Definition font_6x13 : font_info :=
  FontInfo (λ str, 6 * Z.of_nat (String.length str)) 10 3.

Definition hints_zero_inc : XSizeHints :=
  SizeHints PResizeInc 0 0 0 0 0 7 0 0 0.

(** ** Operations of client.c on the state *)

Section Client.

(** [DisplayWidth(display.dpy, n)] and [DisplayHeight(display.dpy, n)] of
    Xlib for screen number [n]. *)
Variable DisplayWidth : Z → Z.
Variable DisplayHeight : Z → Z.

(** The macros [VDESK_FIXED] and [valid_vdesk] of client.h, which is not
    among the sources. *)
Variable VDESK_FIXED : Z.
Variable valid_vdesk : Z → bool.

(** Modelled from the spec: the macro [is_fixed] of client.h, which is not
    among the sources.  "the client is marked fixed (a sentinel "fixed"
    pseudo-desktop value meaning "visible on all desktops")". *)
Definition is_fixed (c : client) : bool := vdesk c =? VDESK_FIXED.

(** *** client_gravitate *)

Definition client_gravitate (c : client) (bw : Z) : client :=
  let g := win_gravity c in
  let '(dx, dy) :=
    if g =? NorthGravity then (0, bw)
    else if g =? NorthEastGravity then (Int.neg bw, bw)
    else if g =? EastGravity then (Int.neg bw, 0)
    else if g =? CenterGravity then (0, 0)
    else if g =? WestGravity then (bw, 0)
    else if g =? SouthWestGravity then (bw, Int.neg bw)
    else if g =? SouthGravity then (0, Int.neg bw)
    else if g =? SouthEastGravity then (Int.neg bw, Int.neg bw)
    else (* default, NorthWestGravity *) (bw, bw) in
  let c :=
    if negb (x c =? 0) || negb (width c =? DisplayWidth (s_screen (c_screen c)))
    then set_x (Int.add (x c) dx) c else c in
  if negb (y c =? 0) || negb (height c =? DisplayHeight (s_screen (c_screen c)))
  then set_y (Int.add (y c) dy) c else c.

(** *** set_wm_state, client_hide, client_show *)

Definition set_wm_state (p : ptr) (state : Z) : M unit :=
  c ← load p;
  call (XChangeProperty_WM_STATE (window c) [state; None_]).

Definition client_hide (p : ptr) : M unit :=
  on_client p (λ c, set_ignore_unmap (Int.add (ignore_unmap c) 1) c);;
  c ← load p;
  call (XUnmapWindow (parent c));;
  set_wm_state p IconicState.

Definition client_show (p : ptr) : M unit :=
  c ← load p;
  call (XMapWindow (parent c));;
  set_wm_state p NormalState.

(** *** select_client *)

Definition select_client (c : option ptr) : M unit :=
  old_current ← gets current;
  match old_current with
  | Some q =>
      cur ← load q;
      call (XSetWindowBorder (parent cur) (bg (c_screen cur)))
  | None => mret tt
  end;;
  match c with
  | Some p =>
      cl ← load p;
      let bpixel :=
        if is_fixed cl then fc (c_screen cl) else fg (c_screen cl) in
      call (XSetWindowBorder (parent cl) bpixel);;
      call (XInstallColormap (cmap cl));;
      call (XSetInputFocus (window cl) RevertToPointerRoot CurrentTime)
  | None => mret tt
  end;;
  modify (set_current c);;
  match old_current with
  | Some q => call (ewmh_set_net_wm_state q)
  | None => mret tt
  end;;
  match c with
  | Some p => call (ewmh_set_net_wm_state p)
  | None => mret tt
  end.

(** *** client_to_vdesk *)

Definition client_to_vdesk (p : ptr) (v : Z) : M unit :=
  when (valid_vdesk v) (
    on_client p (set_vdesk v);;
    c ← load p;
    (if (vdesk c =? s_vdesk (c_screen c)) || (vdesk c =? VDESK_FIXED)
     then client_show p
     else client_hide p);;
    call (ewmh_set_net_wm_desktop p);;
    cur ← gets current;
    select_client cur).

(** *** remove_client *)

(** Lines 349-353: undo the geometry changes applied when the client was
    managed. *)
Definition undo_geometry (c : client) : client :=
  let c := client_gravitate c (Int.neg (border c)) in
  let c := client_gravitate c (old_border c) in
  let c := set_x (Int.sub (x c) (old_border c)) c in
  set_y (Int.sub (y c) (old_border c)) c.

Definition remove_client (p : ptr) : M unit :=
  call XGrabServer;;
  modify (set_ignore_xerror 1);;
  c ← load p;
  (if negb (remove c =? 0) then
     cur ← gets current;
     when (bool_decide (Some p = cur))
       (call (XSetInputFocus PointerRoot RevertToPointerRoot CurrentTime));;
     set_wm_state p WithdrawnState;;
     call (ewmh_withdraw_client p)
   else
     call (ewmh_remove_allowed_actions p));;
  on_client p undo_geometry;;
  c ← load p;
  call (XReparentWindow (window c) (root (c_screen c)) (x c) (y c));;
  call (XSetWindowBorderWidth (window c) (Int.to_unsigned (old_border c)));;
  call (XRemoveFromSaveSet (window c));;
  when (negb (parent c =? 0)) (call (XDestroyWindow (parent c)));;
  modify (λ s, set_lists (list_delete (clients_tab_order s) p)
                 (list_delete (clients_mapping_order s) p)
                 (list_delete (clients_stacking_order s) p) s);;
  when (negb (remove c =? 0)) (
    call (ewmh_set_net_client_list (s_screen (c_screen c)));;
    call (ewmh_set_net_client_list_stacking (s_screen (c_screen c))));;
  cur ← gets current;
  when (bool_decide (cur = Some p)) (
    modify (set_current None);;
    call (ewmh_set_net_wm_state p));;
  free p;;
  call XUngrabServer;;
  call (XSync False_);;
  modify (set_ignore_xerror 0).

(** *** Pointer-level view of client_monitor *)

(** [client_monitor(p)]: reads [*p], writes nothing. *)
Definition client_monitor_at (p : ptr) : M nat :=
  c ← load p; mret (client_monitor c).

(** ** The specification's vocabulary *)

(** The nine gravity directions of the offset table. *)
Inductive gravity :=
  | NorthWest | North | NorthEast
  | West | Center | East
  | SouthWest | South | SouthEast.

(** The direction a [win_gravity] value stands for; a value that is none
    of the nine directions behaves as north-west. *)
Definition effective_gravity (g : Z) : gravity :=
  match g with
  | 2 => North
  | 3 => NorthEast
  | 4 => West
  | 5 => Center
  | 6 => East
  | 7 => SouthWest
  | 8 => South
  | 9 => SouthEast
  | _ => NorthWest
  end.

(** The offset table of the specification: [(dx, dy)] for border delta
    [d]. *)
Definition gravity_offset (g : gravity) (d : Z) : Z * Z :=
  match g with
  | NorthWest => (d, d)
  | North => (0, d)
  | NorthEast => (- d, d)
  | West => (d, 0)
  | Center => (0, 0)
  | East => (- d, 0)
  | SouthWest => (d, - d)
  | South => (0, - d)
  | SouthEast => (- d, - d)
  end.

(** The maximised-axis suppression rule: the client sits at 0 and spans
    the display on that axis. *)
Definition maximised_x (c : client) : bool :=
  (x c =? 0) && (width c =? DisplayWidth (s_screen (c_screen c))).

Definition maximised_y (c : client) : bool :=
  (y c =? 0) && (height c =? DisplayHeight (s_screen (c_screen c))).

(** The rectangle of [m] contains the point [(px, py)], half-open. *)
Definition rect_contains (m : monitor) (px py : Z) : Prop :=
  (m_x m <= px < m_x m + m_width m) ∧ (m_y m <= py < m_y m + m_height m).

(** The pixel the frame [w] was last given by the requests of [l]. *)
Fixpoint border_pixel_of (l : list (Z * request)) (w : Window) : option Z :=
  match l with
  | [] => None
  | (_, XSetWindowBorder w' px) :: l' =>
      match border_pixel_of l' w with
      | Some later => Some later
      | None => if w' =? w then Some px else None
      end
  | _ :: l' => border_pixel_of l' w
  end.

(** A client is selected when it is the target of [current]. *)
Definition selected (s : wm) (p : ptr) : Prop := current s = Some p.

(** A sequence of [select_client] calls. *)
Fixpoint select_clients (l : list (option ptr)) : M unit :=
  match l with
  | [] => mret tt
  | c :: l' => select_client c;; select_clients l'
  end.

(** The log entries of the requests [rs] issued in state [s]. *)
Definition issued (s : wm) (rs : list request) : list (Z * request) :=
  (λ r, (ignore_xerror s, r)) <$> rs.

(** A nullable client pointer is null or designates an allocated client. *)
Definition valid_in (s : wm) (c : option ptr) : Prop :=
  match c with
  | Some q => is_Some (heap s !! q)
  | None => True
  end.

(** The requests of [select_client c] in state [s], in order: the frame of
    the old selection, the frame, colormap and focus of the new one, the
    state flags of the old and of the new one. *)
Definition select_requests (s : wm) (c : option ptr) : list request :=
  match current s ≫= (heap s !!.) with
  | Some cur => [XSetWindowBorder (parent cur) (bg (c_screen cur))]
  | None => []
  end ++
  match c ≫= (heap s !!.) with
  | Some cl =>
      [XSetWindowBorder (parent cl)
         (if is_fixed cl then fc (c_screen cl) else fg (c_screen cl));
       XInstallColormap (cmap cl);
       XSetInputFocus (window cl) RevertToPointerRoot CurrentTime]
  | None => []
  end ++
  match current s with
  | Some q => [ewmh_set_net_wm_state q]
  | None => []
  end ++
  match c with
  | Some p => [ewmh_set_net_wm_state p]
  | None => []
  end.

(** The placements [(w, parent, x, y)] the log asks for. *)
Definition reparents (l : list (Z * request)) : list (Window * Window * Z * Z) :=
  omap (λ e, match e.2 with
             | XReparentWindow w p rx ry => Some (w, p, rx, ry)
             | _ => None
             end) l.

(** The requests of [remove_client p] once it has grabbed the server, in
    order, for the client [c] that [p] designates and the selection
    [cur]. *)
Definition remove_requests (cur : option ptr) (p : ptr) (c : client) :
    list request :=
  let c' := undo_geometry c in
  (if negb (remove c =? 0)
   then (if bool_decide (Some p = cur)
         then [XSetInputFocus PointerRoot RevertToPointerRoot CurrentTime]
         else []) ++
        [XChangeProperty_WM_STATE (window c) [WithdrawnState; None_];
         ewmh_withdraw_client p]
   else [ewmh_remove_allowed_actions p]) ++
  [XReparentWindow (window c') (root (c_screen c')) (x c') (y c');
   XSetWindowBorderWidth (window c') (Int.to_unsigned (old_border c'));
   XRemoveFromSaveSet (window c')] ++
  (if negb (parent c' =? 0) then [XDestroyWindow (parent c')] else []) ++
  (if negb (remove c' =? 0)
   then [ewmh_set_net_client_list (s_screen (c_screen c'));
         ewmh_set_net_client_list_stacking (s_screen (c_screen c'))]
   else []) ++
  (if bool_decide (cur = Some p) then [ewmh_set_net_wm_state p] else []) ++
  [XUngrabServer; XSync False_].

(** The state [remove_client p] leaves. *)
Definition removed (p : ptr) (c : client) (s : wm) : wm :=
  Wm (delete p (heap s))
     (list_delete (clients_tab_order s) p)
     (list_delete (clients_mapping_order s) p)
     (list_delete (clients_stacking_order s) p)
     (if bool_decide (current s = Some p) then None else current s)
     0
     (xlog s ++ (ignore_xerror s, XGrabServer)
        :: ((λ r, (1, r)) <$> remove_requests (current s) p c)).

(** The reading of the removal transaction in which error propagation is
    re-enabled first and the flush comes second: [remove_client p] issues
    its [XSync] with [ignore_xerror] already back to 0. *)
Definition flushes_after_reenabling (p : ptr) (s : wm) : Prop :=
  ∃ s' new, remove_client p s = Some (tt, s') ∧ xlog s' = xlog s ++ new ∧
            (0, XSync False_) ∈ new.

(** *** update_info_window *)

(** [info_window] is [display.info_window], [name] what [XFetchName]
    stores ([None] for [NULL]); the result is the list of requests, [None]
    when a division by zero is reached. *)
Definition update_info_window (font : font_info) (info_window : Window)
    (name : option string) (c : client) : option (list info_request) :=
  if info_window =? 0 then Some []
  else
    a ← int_div_checked (Int.sub (width c) (base_width c)) (width_inc c);
    b ← int_div_checked (Int.sub (height c) (base_height c)) (height_inc c);
    let buf := info_text a b (x c) (y c) in
    let iwinw := Int.add (XTextWidth font buf) 2 in
    let iwinh := Int.add (ascent font) (descent font) in
    let iwinw :=
      match name with
      | Some n =>
          if iwinw <? XTextWidth font n then Int.add (XTextWidth font n) 2
          else iwinw
      | None => iwinw
      end in
    let iwinh :=
      match name with
      | Some _ => Int.wrap (iwinh * 2)
      | None => iwinh
      end in
    let iwinx := Int.sub (Int.add (Int.add (x c) (border c)) (width c)) iwinw in
    let iwiny := Int.sub (y c) (border c) in
    let dw := DisplayWidth (s_screen (c_screen c)) in
    let dh := DisplayHeight (s_screen (c_screen c)) in
    let iwinx := if dw <? Int.add iwinx iwinw then Int.sub dw iwinw else iwinx in
    let iwinx := if iwinx <? 0 then 0 else iwinx in
    let iwiny := if dh <? Int.add iwiny iwinh then Int.sub dh iwinh else iwiny in
    let iwiny := if iwiny <? 0 then 0 else iwiny in
    Some ([XMoveResizeWindow info_window iwinx iwiny
             (Int.to_unsigned iwinw) (Int.to_unsigned iwinh);
           XClearWindow info_window] ++
          match name with
          | Some n =>
              [XDrawString info_window 1 (Int.sub (Int.div iwinh 2) 1)
                 n (strlen n)]
          | None => []
          end ++
          [XDrawString info_window 1 (Int.sub iwinh 1) buf (strlen buf)]).

(** ** Decoration invariants *)

(** Different allocated clients have different frames. *)
Definition frames_distinct (s : wm) : Prop :=
  ∀ q1 q2 c1 c2, heap s !! q1 = Some c1 → heap s !! q2 = Some c2 →
    q1 ≠ q2 → parent c1 ≠ parent c2.

(** The frame of every client that is not selected was last given the
    inactive colour of its screen, if it was given a colour at all. *)
Definition only_selected_highlighted (s : wm) : Prop :=
  ∀ q c, heap s !! q = Some c → current s ≠ Some q →
    border_pixel_of (xlog s) (parent c) = None ∨
    border_pixel_of (xlog s) (parent c) = Some (bg (c_screen c)).

(** The destruction of a window. *)
Definition is_destroy_request (r : request) : bool :=
  match r with
  | XDestroyWindow _ => true
  | _ => false
  end.

(** ** Facts about C integers *)

Lemma int_wrap_in_range z : Int.in_range (Int.wrap z).
Proof.
  unfold Int.in_range, Int.wrap, Int.min_signed, Int.max_signed, Int.modulus.
  pose proof (Z.mod_pos_bound (z + 2 ^ 31) (2 ^ 32)). lia.
Qed.

Lemma int_wrap_id z : Int.in_range z → Int.wrap z = z.
Proof.
  unfold Int.in_range, Int.wrap, Int.min_signed, Int.max_signed, Int.modulus.
  intros Hz. rewrite Z.mod_small; lia.
Qed.

(** [wrap] only depends on the residue modulo [2^32]. *)
Lemma int_wrap_add_l a b : Int.wrap (Int.wrap a + b) = Int.wrap (a + b).
Proof.
  unfold Int.wrap, Int.modulus.
  f_equal. replace ((a + 2 ^ 31) mod 2 ^ 32 - 2 ^ 31 + b + 2 ^ 31)
    with ((a + 2 ^ 31) mod 2 ^ 32 + b) by lia.
  rewrite Zplus_mod_idemp_l. f_equal. lia.
Qed.

Lemma int_wrap_add_r a b : Int.wrap (a + Int.wrap b) = Int.wrap (a + b).
Proof. rewrite Z.add_comm, int_wrap_add_l. f_equal. lia. Qed.

Lemma int_wrap_opp a : Int.wrap (- Int.wrap a) = Int.wrap (- a).
Proof.
  unfold Int.wrap, Int.modulus. f_equal.
  replace (- ((a + 2 ^ 31) mod 2 ^ 32 - 2 ^ 31) + 2 ^ 31)
    with (2 ^ 32 - (a + 2 ^ 31) mod 2 ^ 32) by lia.
  rewrite Zminus_mod_idemp_r. 
  replace (- a + 2 ^ 31) with (2 ^ 32 - (a + 2 ^ 31) + 0) by lia.
  replace (2 ^ 32 - (a + 2 ^ 31) + 0) with (- (a + 2 ^ 31) + 1 * 2 ^ 32) by lia.
  replace (2 ^ 32 - (a + 2 ^ 31)) with (- (a + 2 ^ 31) + 1 * 2 ^ 32) by lia.
  reflexivity.
Qed.

Lemma int_add_neg a b : Int.add a (Int.neg b) = Int.wrap (a - b).
Proof. unfold Int.add, Int.neg. rewrite int_wrap_add_r. f_equal. Qed.

(** ** client_gravitate *)

Lemma effective_gravity_default g :
  g < 2 ∨ 9 < g → effective_gravity g = NorthWest.
Proof.
  intros Hg. destruct g as [|p|p]; try reflexivity.
  do 4 (try destruct p as [p|p|]); try reflexivity; lia.
Qed.

(** The offsets [client_gravitate] computes are those of the table, up to
    the representation of [- d] as an [int]. *)
Lemma client_gravitate_offsets (c : client) (d : Z) :
  let '(dx, dy) := gravity_offset (effective_gravity (win_gravity c)) d in
  client_gravitate c d =
    set_y (if maximised_y c then y c else Int.wrap (y c + dy))
      (set_x (if maximised_x c then x c else Int.wrap (x c + dx)) c).
Proof.
  destruct c as [w p s cx cy cw ch b ob ? ? ? ? ? ? ? ? gh g ? ? ? ? ?].
  unfold client_gravitate, maximised_x, maximised_y; cbn [win_gravity].
  assert (Hneg : ∀ a, Int.add a (Int.neg d) = Int.wrap (a + - d))
    by (intros; apply int_add_neg).
  assert (Hpos : ∀ a e, Int.add a e = Int.wrap (a + e)) by reflexivity.
  unfold NorthGravity, NorthEastGravity, EastGravity, CenterGravity,
    WestGravity, SouthWestGravity, SouthGravity, SouthEastGravity.
  repeat match goal with
    | |- context [g =? ?k] => destruct (Z.eqb_spec g k) as [->|?]
    end;
    try (rewrite effective_gravity_default by lia);
    cbn [effective_gravity gravity_offset x y width height c_screen set_x set_y];
    destruct (cx =? 0), (cw =? DisplayWidth (s_screen s));
    cbn [negb orb andb x y width height c_screen set_x set_y];
    destruct (cy =? 0), (ch =? DisplayHeight (s_screen s));
    cbn [negb orb andb x y width height c_screen set_x set_y];
    rewrite ?Hneg, ?Hpos; reflexivity.
Qed.

Lemma client_gravitate_x (c : client) (d : Z) :
  x (client_gravitate c d) =
    if maximised_x c then x c
    else Int.wrap (x c + (gravity_offset (effective_gravity (win_gravity c)) d).1).
Proof.
  pose proof (client_gravitate_offsets c d) as H.
  destruct (gravity_offset _ d) as [dx dy]. cbv beta iota in H.
  rewrite H. by destruct (maximised_x c), (maximised_y c).
Qed.

Lemma client_gravitate_y (c : client) (d : Z) :
  y (client_gravitate c d) =
    if maximised_y c then y c
    else Int.wrap (y c + (gravity_offset (effective_gravity (win_gravity c)) d).2).
Proof.
  pose proof (client_gravitate_offsets c d) as H.
  destruct (gravity_offset _ d) as [dx dy]. cbv beta iota in H.
  rewrite H. by destruct (maximised_x c), (maximised_y c).
Qed.

(** [client_gravitate] writes [x] and [y] only. *)
Lemma client_gravitate_frame (c : client) (d : Z) :
  let c' := client_gravitate c d in
  window c' = window c ∧ parent c' = parent c ∧ c_screen c' = c_screen c ∧
  width c' = width c ∧ height c' = height c ∧ border c' = border c ∧
  old_border c' = old_border c ∧ win_gravity c' = win_gravity c ∧
  vdesk c' = vdesk c ∧ remove c' = remove c.
Proof.
  pose proof (client_gravitate_offsets c d) as H.
  destruct (gravity_offset _ d) as [dx dy]. cbv beta iota zeta in *.
  by rewrite H.
Qed.

Lemma int_wrap_sub_r a b : Int.wrap (a + - Int.wrap b) = Int.wrap (a + - b).
Proof.
  rewrite <- (int_wrap_add_r a (- Int.wrap b)), int_wrap_opp.
  apply int_wrap_add_r.
Qed.

(** The two offsets of a call with [b] and a call with [Int.neg b] cancel. *)
Lemma gravity_offset_cancel (g : gravity) (a b : Z) :
  Int.in_range a →
  Int.wrap (Int.wrap (a + (gravity_offset g b).1)
            + (gravity_offset g (Int.neg b)).1) = a ∧
  Int.wrap (Int.wrap (a + (gravity_offset g b).2)
            + (gravity_offset g (Int.neg b)).2) = a.
Proof.
  intros Ha. unfold Int.neg.
  destruct g; cbn [gravity_offset fst snd]; rewrite !int_wrap_add_l;
    rewrite ?int_wrap_add_r, ?int_wrap_sub_r;
    split; (rewrite <- (int_wrap_id a) at 2 by done); f_equal; lia.
Qed.

(** C2: [client_gravitate c d] adds to [(x, y)] the offset the nine-entry
    table gives for the effective gravity of [c] (the sum taken as a C
    [int]); a gravity value that is none of the nine directions is treated
    as north-west; the x component is left out when [x] is 0 and the width
    is the display width, and independently the y component when [y] is 0
    and the height is the display height.  No other field changes. *)
Theorem client_gravitate_table (c : client) (d : Z) :
  (effective_gravity NorthWestGravity = NorthWest ∧
   effective_gravity NorthGravity = North ∧
   effective_gravity NorthEastGravity = NorthEast ∧
   effective_gravity WestGravity = West ∧
   effective_gravity CenterGravity = Center ∧
   effective_gravity EastGravity = East ∧
   effective_gravity SouthWestGravity = SouthWest ∧
   effective_gravity SouthGravity = South ∧
   effective_gravity SouthEastGravity = SouthEast ∧
   ∀ g, g < NorthWestGravity ∨ SouthEastGravity < g →
        effective_gravity g = NorthWest) ∧
  let '(dx, dy) := gravity_offset (effective_gravity (win_gravity c)) d in
  client_gravitate c d =
    set_y (if maximised_y c then y c else Int.wrap (y c + dy))
      (set_x (if maximised_x c then x c else Int.wrap (x c + dx)) c).
Proof.
  split.
  - repeat split; intros. apply effective_gravity_default.
    unfold NorthWestGravity, SouthEastGravity in *. lia.
  - apply client_gravitate_offsets.
Qed.

(** When the sums fit an [int], the offsets are added exactly. *)
Corollary client_gravitate_exact (c : client) (d : Z) :
  let '(dx, dy) := gravity_offset (effective_gravity (win_gravity c)) d in
  maximised_x c = false → maximised_y c = false →
  Int.in_range (x c + dx) → Int.in_range (y c + dy) →
  x (client_gravitate c d) = x c + dx ∧ y (client_gravitate c d) = y c + dy.
Proof.
  pose proof (client_gravitate_x c d) as Hx.
  pose proof (client_gravitate_y c d) as Hy.
  destruct (gravity_offset _ d) as [dx dy]. cbn [fst snd] in *.
  intros Hmx Hmy Hrx Hry. rewrite Hx, Hy, Hmx, Hmy.
  by rewrite !int_wrap_id.
Qed.

(** C3: when the maximised-axis rule applies to neither axis, neither
    before the first call nor before the second, [client_gravitate c b]
    followed by [client_gravitate c (-b)] restores [x] and [y]. *)
Theorem gravitate_inverse (c : client) (b : Z) :
  Int.in_range (x c) → Int.in_range (y c) →
  maximised_x c = false → maximised_y c = false →
  maximised_x (client_gravitate c b) = false →
  maximised_y (client_gravitate c b) = false →
  x (client_gravitate (client_gravitate c b) (Int.neg b)) = x c ∧
  y (client_gravitate (client_gravitate c b) (Int.neg b)) = y c.
Proof.
  intros Hx Hy Hmx Hmy Hmx' Hmy'.
  pose proof (client_gravitate_frame c b) as (_ & _ & _ & _ & _ & _ & _ & Hg & _).
  rewrite (client_gravitate_x (client_gravitate c b)),
    (client_gravitate_y (client_gravitate c b)), Hmx', Hmy', Hg.
  rewrite client_gravitate_x, client_gravitate_y, Hmx, Hmy.
  split; by apply gravity_offset_cancel.
Qed.

(** ** get_wm_normal_hints *)

(** The function is total, returns the hint flags and only assigns the
    size-constraint and gravity fields. *)
Lemma get_wm_normal_hints_frame (size : XSizeHints) (c : client) :
  let r := get_wm_normal_hints size c in
  r.1 = sh_flags size ∧
  window r.2 = window c ∧ parent r.2 = parent c ∧ x r.2 = x c ∧ y r.2 = y c ∧
  width r.2 = width c ∧ height r.2 = height c ∧ vdesk r.2 = vdesk c.
Proof. by destruct c. Qed.

Lemma get_wm_normal_hints_increments (size : XSizeHints) (c : client) :
  width_inc (get_wm_normal_hints size c).2 ≠ 0 ∧
  height_inc (get_wm_normal_hints size c).2 ≠ 0.
Proof.
  unfold get_wm_normal_hints; cbn.
  destruct (has_flag _ PResizeInc);
    [destruct (Z.eqb_spec (sh_width_inc size) 0),
       (Z.eqb_spec (sh_height_inc size) 0) |]; split; lia.
Qed.

(** C4: when the raw hints carry no minimum size, the client ends with
    [min_width = base_width + width_inc] and [min_height = base_height +
    height_inc] (sums of C [int]s); when they carry no minimum, maximum,
    base or increment, it ends with increments (1,1), base (0,0), min
    (1,1) and max (0,0); the call returns the hint flags in every case. *)
Theorem get_wm_normal_hints_no_min (size : XSizeHints) (c : client) :
  has_flag (sh_flags size) PMinSize = false →
  let c' := (get_wm_normal_hints size c).2 in
  (min_width c' = Int.wrap (base_width c' + width_inc c') ∧
   min_height c' = Int.wrap (base_height c' + height_inc c')) ∧
  (has_flag (sh_flags size) PMaxSize = false →
   has_flag (sh_flags size) PBaseSize = false →
   has_flag (sh_flags size) PResizeInc = false →
   (width_inc c', height_inc c') = (1, 1) ∧
   (base_width c', base_height c') = (0, 0) ∧
   (min_width c', min_height c') = (1, 1) ∧
   (max_width c', max_height c') = (0, 0)) ∧
  (get_wm_normal_hints size c).1 = sh_flags size.
Proof.
  intros Hmin. unfold get_wm_normal_hints; cbn. rewrite Hmin; cbn.
  split; [done|]. split; [|done].
  by intros -> -> ->.
Qed.

(** C10: minimum and maximum sizes that are both supplied are copied as
    they are; when the maximum is below the minimum on an axis, the client
    ends with [max < min] on that axis. *)
Theorem get_wm_normal_hints_min_max_verbatim (size : XSizeHints) (c : client) :
  has_flag (sh_flags size) PMinSize = true →
  has_flag (sh_flags size) PMaxSize = true →
  let c' := (get_wm_normal_hints size c).2 in
  min_width c' = sh_min_width size ∧ min_height c' = sh_min_height size ∧
  max_width c' = sh_max_width size ∧ max_height c' = sh_max_height size ∧
  (sh_max_width size < sh_min_width size → max_width c' < min_width c') ∧
  (sh_max_height size < sh_min_height size → max_height c' < min_height c') ∧
  (get_wm_normal_hints size c).1 = sh_flags size.
Proof.
  intros Hmin Hmax. unfold get_wm_normal_hints; cbn. by rewrite Hmin, Hmax.
Qed.

(** ** client_monitor *)

(** Once a monitor has been chosen the loop keeps it. *)
Lemma client_monitor_loop_done midx midy ms i best :
  client_monitor_loop midx midy ms i true best = best.
Proof.
  revert i. induction ms as [|m ms IH]; intros i; [done|].
  cbn. rewrite andb_false_r. apply IH.
Qed.

(** The loop finds the first monitor the point is inside of. *)
Lemma client_monitor_loop_find midx midy ms i :
  client_monitor_loop midx midy ms i false None =
    (λ r, (i + r.1)%nat) <$>
      list_find (λ m, is_inside midx midy m = true) ms.
Proof.
  revert i. induction ms as [|m ms IH]; intros i; [done|].
  cbn [client_monitor_loop list_find]. rewrite andb_true_r.
  case_decide as Hin.
  - rewrite Hin, client_monitor_loop_done. cbn. f_equal. lia.
  - apply not_true_is_false in Hin. rewrite Hin, IH.
    destruct (list_find _ ms) as [[j m']|]; cbn; [f_equal; lia | done].
Qed.

Lemma client_monitor_find (c : client) :
  client_monitor c =
    match list_find (λ m, is_inside (midx_of c) (midy_of c) m = true)
            (monitors (c_screen c)) with
    | Some (i, _) => i
    | None => 0%nat
    end.
Proof.
  unfold client_monitor. rewrite client_monitor_loop_find.
  by destruct (list_find _ _) as [[i m]|].
Qed.

(** The first monitor the center is inside of is the result. *)
Lemma client_monitor_first (c : client) (i : nat) (m : monitor) :
  monitors (c_screen c) !! i = Some m →
  is_inside (midx_of c) (midy_of c) m = true →
  (∀ j m', monitors (c_screen c) !! j = Some m' → (j < i)%nat →
     is_inside (midx_of c) (midy_of c) m' = false) →
  client_monitor c = i.
Proof.
  intros Hi Hm Hfirst. rewrite client_monitor_find.
  destruct (list_find _ _) as [[k m']|] eqn:Hfind.
  - apply list_find_Some in Hfind as (Hk & Hm' & Hbefore).
    destruct (Nat.lt_trichotomy k i) as [Hlt|[->|Hgt]]; [|done|].
    + rewrite (Hfirst k m' Hk Hlt) in Hm'. done.
    + destruct (Hbefore i m Hi Hgt). done.
  - apply list_find_None in Hfind.
    rewrite Forall_forall in Hfind. destruct (Hfind m); [|done].
    by eapply list_elem_of_lookup_2.
Qed.

(** Monitor 0 is the result when the center is inside no monitor. *)
Lemma client_monitor_fallback (c : client) :
  (∀ m, m ∈ monitors (c_screen c) →
     is_inside (midx_of c) (midy_of c) m = false) →
  client_monitor c = 0%nat.
Proof.
  intros Hnone. rewrite client_monitor_find.
  destruct (list_find _ _) as [[k m']|] eqn:Hfind; [|done].
  apply list_find_Some in Hfind as (Hk & Hm' & _).
  rewrite (Hnone m') in Hm'; [done|]. by eapply list_elem_of_lookup_2.
Qed.

(** Under the rectangle's far edges fitting an [int], the test of the loop
    is containment in the half-open rectangle. *)
Lemma is_inside_rect_contains (midx midy : Z) (m : monitor) :
  Int.in_range (m_x m + m_width m) → Int.in_range (m_y m + m_height m) →
  is_inside midx midy m = true ↔ rect_contains m midx midy.
Proof using Type.
  intros Hw Hh. unfold is_inside, rect_contains, Int.add.
  rewrite !int_wrap_id by done.
  by rewrite !andb_true_iff, !Z.leb_le, !Z.ltb_lt.
Qed.

Lemma is_inside_false_iff (midx midy : Z) (m : monitor) :
  Int.in_range (m_x m + m_width m) → Int.in_range (m_y m + m_height m) →
  is_inside midx midy m = false ↔ ¬ rect_contains m midx midy.
Proof.
  intros Hw Hh. rewrite <- is_inside_rect_contains by done.
  by destruct (is_inside midx midy m).
Qed.

Lemma int_half_in_range (z : Z) : Int.in_range z → Int.in_range (z ÷ 2).
Proof using Type.
  clear. unfold Int.in_range, Int.min_signed, Int.max_signed. intros Hz.
  Z.quot_rem_to_equations. lia.
Qed.

(** Without overflow the center is [(x + width/2, y + height/2)]. *)
Lemma midpoint_exact (c : client) :
  Int.in_range (width c) → Int.in_range (height c) →
  Int.in_range (x c + width c ÷ 2) → Int.in_range (y c + height c ÷ 2) →
  midx_of c = x c + width c ÷ 2 ∧ midy_of c = y c + height c ÷ 2.
Proof using Type.
  intros Hw Hh Hx Hy. unfold midx_of, midy_of, Int.add, Int.div.
  pose proof (int_half_in_range _ Hw) as Hqw.
  pose proof (int_half_in_range _ Hh) as Hqh.
  rewrite (int_wrap_id (width c ÷ 2)), (int_wrap_id (height c ÷ 2)) by done.
  by rewrite !int_wrap_id.
Qed.

(** C6: [client_monitor] takes the center point [(x + width/2, y +
    height/2)] and returns the first monitor of the screen's list that it
    is inside of, monitor 0 when it is inside none, and leaves the state,
    the client included, as it was.  When the far edges of the monitors
    and the center fit an [int], being inside is containment in the
    rectangle of the monitor. *)
Theorem client_monitor_first_match (c : client) :
  let ms := monitors (c_screen c) in
  let inside := is_inside (midx_of c) (midy_of c) in
  let cx := x c + width c ÷ 2 in
  let cy := y c + height c ÷ 2 in
  (midx_of c = Int.wrap (x c + Int.wrap (width c ÷ 2)) ∧
   midy_of c = Int.wrap (y c + Int.wrap (height c ÷ 2))) ∧
  (∀ i m, ms !! i = Some m → inside m = true →
     (∀ j m', ms !! j = Some m' → (j < i)%nat → inside m' = false) →
     client_monitor c = i) ∧
  ((∀ m, m ∈ ms → inside m = false) → client_monitor c = 0%nat) ∧
  (∀ p s, heap s !! p = Some c →
     client_monitor_at p s = Some (client_monitor c, s)) ∧
  (Forall (λ m, Int.in_range (m_x m + m_width m) ∧
                Int.in_range (m_y m + m_height m)) ms →
   Int.in_range (width c) → Int.in_range (height c) →
   Int.in_range cx → Int.in_range cy →
   (∀ i m, ms !! i = Some m → rect_contains m cx cy →
      (∀ j m', ms !! j = Some m' → (j < i)%nat → ¬ rect_contains m' cx cy) →
      client_monitor c = i) ∧
   ((∀ m, m ∈ ms → ¬ rect_contains m cx cy) → client_monitor c = 0%nat)).
Proof using Type.
  cbn zeta. split; [done|]. split; [|split; [|split]].
  - apply client_monitor_first.
  - apply client_monitor_fallback.
  - intros p s Hp. unfold client_monitor_at, load, mbind, M_bind, mret, M_ret.
    by rewrite Hp.
  - intros Hms Hw Hh Hcx Hcy.
    destruct (midpoint_exact c Hw Hh Hcx Hcy) as [Hmx Hmy].
    rewrite Forall_forall in Hms. split.
    + intros i m Hi Hm Hfirst. apply (client_monitor_first c i m Hi).
      * rewrite Hmx, Hmy. apply is_inside_rect_contains; [apply Hms..|done];
          by eapply list_elem_of_lookup_2.
      * intros j m' Hj Hlt. rewrite Hmx, Hmy.
        apply is_inside_false_iff; [apply Hms..|by eapply Hfirst];
          by eapply list_elem_of_lookup_2.
    + intros Hnone. apply client_monitor_fallback. intros m Hm.
      rewrite Hmx, Hmy.
      apply is_inside_false_iff; [apply Hms..|]; auto.
Qed.

(** C9: containment in [client_monitor] is half-open on both axes.  For a
    monitor [m] whose far edges fit an [int]: the test is [m.x <= midx <
    m.x + m.width] and [m.y <= midy < m.y + m.height]; a point on the left
    or top edge is inside (the monitor being non-empty on that axis and
    the point inside on the other axis), a point on the right or bottom
    edge is outside; and a client centered on the edge where monitor [a]
    ends and [m] begins is assigned to [m], whichever of the two comes
    first in the list, when no earlier monitor other than [a] contains the
    center. *)
Theorem client_monitor_half_open (midx midy : Z) (m : monitor) :
  Int.in_range (m_x m + m_width m) → Int.in_range (m_y m + m_height m) →
  (is_inside midx midy m = true ↔
     (m_x m <= midx < m_x m + m_width m) ∧ (m_y m <= midy < m_y m + m_height m)) ∧
  (midx = m_x m → 0 < m_width m → m_y m <= midy < m_y m + m_height m →
     is_inside midx midy m = true) ∧
  (midy = m_y m → 0 < m_height m → m_x m <= midx < m_x m + m_width m →
     is_inside midx midy m = true) ∧
  (midx = m_x m + m_width m → is_inside midx midy m = false) ∧
  (midy = m_y m + m_height m → is_inside midx midy m = false) ∧
  (∀ (c : client) (a : monitor) (i j : nat),
     midx_of c = midx → midy_of c = midy →
     monitors (c_screen c) !! i = Some a →
     monitors (c_screen c) !! j = Some m →
     Int.in_range (m_x a + m_width a) → Int.in_range (m_y a + m_height a) →
     (m_x m = m_x a + m_width a ∧ midx = m_x m ∧ 0 < m_width m ∧
      m_y m <= midy < m_y m + m_height m) ∨
     (m_y m = m_y a + m_height a ∧ midy = m_y m ∧ 0 < m_height m ∧
      m_x m <= midx < m_x m + m_width m) →
     (∀ k m', monitors (c_screen c) !! k = Some m' → (k < j)%nat → k ≠ i →
        is_inside midx midy m' = false) →
     client_monitor c = j).
Proof.
  intros Hw Hh.
  pose proof (is_inside_rect_contains midx midy m Hw Hh) as Hiff.
  pose proof (is_inside_false_iff midx midy m Hw Hh) as Hniff.
  unfold rect_contains in *.
  split; [done|]. repeat split.
  - intros. apply Hiff. lia.
  - intros. apply Hiff. lia.
  - intros. apply Hniff. lia.
  - intros. apply Hniff. lia.
  - intros c a i j <- <- Hi Hj Hwa Hha Hadj Hothers.
    apply (client_monitor_first c j m Hj).
    + apply Hiff. lia.
    + intros k m' Hk Hlt. destruct (decide (k = i)) as [->|Hne].
      * assert (m' = a) as -> by congruence.
        apply is_inside_false_iff; [done..|]. unfold rect_contains. lia.
      * by apply (Hothers k m').
Qed.

(** ** Running the operations *)

Lemma bind_run {A B} (m : M A) (f : A → M B) (s : wm) :
  (m ≫= f) s = match m s with Some (a, s') => f a s' | None => None end.
Proof. reflexivity. Qed.

Lemma load_run (p : ptr) (s : wm) (c : client) :
  heap s !! p = Some c → load p s = Some (c, s).
Proof. unfold load. by intros ->. Qed.

Lemma call_run (r : request) (s : wm) :
  call r s = Some (tt, set_xlog (xlog s ++ issued s [r]) s).
Proof. reflexivity. Qed.

Ltac simpl_state :=
  cbn beta iota zeta delta
    [heap current xlog ignore_xerror clients_tab_order clients_mapping_order
     clients_stacking_order set_heap set_current set_xlog set_ignore_xerror
     set_lists fst snd].

(** Symbolic execution of a monadic program on a state. *)
Ltac run :=
  repeat (progress
    (unfold mbind, M_bind, mret, M_ret, gets, modify, call, when, on_client,
       free, load; simpl_state)).

Lemma valid_in_Some (s : wm) (p : ptr) (c : client) :
  heap s !! p = Some c → valid_in s (Some p).
Proof. intros H. cbn. rewrite H. by eexists. Qed.

Lemma select_client_run (c : option ptr) (s : wm) :
  valid_in s (current s) → valid_in s c →
  select_client c s =
    Some (tt, set_xlog (xlog s ++ issued s (select_requests s c))
                (set_current c s)).
Proof.
  destruct s as [h t m k cur ign log].
  unfold valid_in, select_client, select_requests, issued; cbn.
  intros Hcur Hc.
  destruct cur as [q|]; [destruct Hcur as [cq Hq]|];
    (destruct c as [p|]; [destruct Hc as [cp Hp]|]);
    repeat (run; rewrite ?Hq, ?Hp);
    unfold set_xlog, set_current; cbn; rewrite ?Hq, ?Hp; cbn;
    rewrite <- ?app_assoc, ?app_nil_r; reflexivity.
Qed.

(** ** select_client *)

Lemma border_pixel_of_app (l1 l2 : list (Z * request)) (w : Window) :
  border_pixel_of (l1 ++ l2) w =
    match border_pixel_of l2 w with
    | Some px => Some px
    | None => border_pixel_of l1 w
    end.
Proof.
  induction l1 as [|[ign r] l1 IH]; cbn [app border_pixel_of].
  - by destruct (border_pixel_of l2 w).
  - destruct r; rewrite ?IH; try done.
    by destruct (border_pixel_of l2 w), (border_pixel_of l1 w).
Qed.

Lemma app_cons4 {A} (l : list A) (a b c d : A) (t : list A) :
  l ++ a :: b :: c :: d :: t = (l ++ [a; b; c; d]) ++ t.
Proof. by rewrite <- app_assoc. Qed.

Lemma last_cons_default {A} (a d : A) (l : list A) :
  List.last (a :: l) d = List.last l a.
Proof.
  revert a d. induction l as [|b l IH]; intros a d; [done|].
  change (List.last (a :: b :: l) d) with (List.last (b :: l) d).
  by rewrite (IH b d), (IH b a).
Qed.

(** A sequence of selections succeeds, leaves the clients as they are and
    ends with the last argument selected. *)
Lemma select_clients_run (l : list (option ptr)) (s : wm) :
  valid_in s (current s) → Forall (valid_in s) l →
  ∃ s', select_clients l s = Some (tt, s') ∧ heap s' = heap s ∧
        current s' = List.last l (current s).
Proof.
  revert s. induction l as [|c l IH]; intros s Hcur Hl.
  - by exists s.
  - apply Forall_cons in Hl as [Hc Hl].
    cbn [select_clients]. rewrite bind_run, select_client_run by done.
    set (s1 := set_xlog _ _).
    destruct (IH s1) as (s' & Hrun & Hheap & Hlast); [done..|].
    exists s'. rewrite last_cons_default. done.
Qed.

(** C7: after any sequence of [select_client] calls at most one client is
    selected (the one of the last call); after [select_client a] and then
    [select_client b], the state flags of [a] and then of [b] are the last
    two things published, also when [a] and [b] are the same client, and
    [b] is selected; when [a] and [b] are different clients with different
    frames, the frame of [a] has the inactive colour, the frame of [b] the
    fixed colour if [b] is fixed and the active colour otherwise, and [a]
    is not selected. *)
Theorem select_client_exclusive (s : wm) :
  valid_in s (current s) →
  (∀ l, Forall (valid_in s) l →
     ∃ s', select_clients l s = Some (tt, s') ∧
           current s' = List.last l (current s) ∧
           ∀ p q, selected s' p → selected s' q → p = q) ∧
  (∀ a b ca cb, heap s !! a = Some ca → heap s !! b = Some cb →
     ∃ s1 s2,
       select_client (Some a) s = Some (tt, s1) ∧
       select_client (Some b) s1 = Some (tt, s2) ∧
       (∃ pre, xlog s2 =
          pre ++ issued s [ewmh_set_net_wm_state a; ewmh_set_net_wm_state b]) ∧
       selected s2 b ∧
       (a ≠ b → parent ca ≠ parent cb →
        border_pixel_of (xlog s2) (parent ca) = Some (bg (c_screen ca)) ∧
        border_pixel_of (xlog s2) (parent cb) =
          Some (if is_fixed cb then fc (c_screen cb) else fg (c_screen cb)) ∧
        ¬ selected s2 a)).
Proof.
  intros Hcur. split.
  - intros l Hl. destruct (select_clients_run l s) as (s' & Hrun & _ & Hlast);
      [done..|].
    exists s'. repeat split; [done..|].
    unfold selected. intros p q Hp Hq. congruence.
  - intros a b ca cb Ha Hb.
    eexists _, _. split; [apply select_client_run; [done|by eapply valid_in_Some]|].
    set (s1 := set_xlog _ _).
    assert (Hrun : select_client (Some b) s1 = _)
      by (apply select_client_run; by eapply valid_in_Some).
    split; [exact Hrun|]. clear Hrun.
    subst s1. unfold select_requests, issued.
    cbn [current heap xlog ignore_xerror set_xlog set_current mbind
         option_bind]. rewrite Ha, Hb.
    split; [|split; [done|]].
    + eexists. cbn [fmap list_fmap app].
      rewrite app_cons4. reflexivity.
    + intros Hab Hpar. unfold issued. cbn [fmap list_fmap app].
      rewrite !border_pixel_of_app. cbn [border_pixel_of].
      destruct (Z.eqb_spec (parent cb) (parent ca)); [congruence|].
      rewrite Z.eqb_refl. rewrite Z.eqb_refl.
      split; [done|]. split; [done|]. unfold selected; cbn. congruence.
Qed.

(** ** client_show, client_hide and client_to_vdesk *)

Lemma set_wm_state_run (p : ptr) (state : Z) (s : wm) (c : client) :
  heap s !! p = Some c →
  set_wm_state p state s =
    Some (tt, set_xlog (xlog s ++
                issued s [XChangeProperty_WM_STATE (window c) [state; None_]]) s).
Proof.
  intros Hp. unfold set_wm_state. by rewrite bind_run, (load_run p s c).
Qed.

Lemma client_show_run (p : ptr) (s : wm) (c : client) :
  heap s !! p = Some c →
  client_show p s =
    Some (tt, set_xlog (xlog s ++
                issued s [XMapWindow (parent c);
                          XChangeProperty_WM_STATE (window c)
                            [NormalState; None_]]) s).
Proof.
  intros Hp. destruct s as [h t m k cur ign log]. cbn in Hp.
  unfold client_show, set_wm_state, issued.
  repeat (run; rewrite ?Hp). cbn. by rewrite <- app_assoc.
Qed.

Lemma client_hide_run (p : ptr) (s : wm) (c : client) :
  heap s !! p = Some c →
  client_hide p s =
    Some (tt, set_xlog (xlog s ++
                issued s [XUnmapWindow (parent c);
                          XChangeProperty_WM_STATE (window c)
                            [IconicState; None_]])
                (set_heap (<[p := set_ignore_unmap
                                     (Int.add (ignore_unmap c) 1) c]> (heap s))
                   s)).
Proof.
  intros Hp. destruct s as [h t m k cur ign log]. cbn in Hp.
  unfold client_hide, set_wm_state, issued.
  repeat (run; rewrite ?Hp, ?lookup_insert_eq). cbn. by rewrite <- app_assoc.
Qed.

Lemma on_client_run (p : ptr) (f : client → client) (s : wm) (c : client) :
  heap s !! p = Some c →
  on_client p f s = Some (tt, set_heap (<[p := f c]> (heap s)) s).
Proof. intros Hp. unfold on_client. by rewrite bind_run, (load_run p s c). Qed.

Lemma valid_in_insert (s s' : wm) (p : ptr) (c : client) (q : option ptr) :
  heap s' = <[p := c]> (heap s) → valid_in s q → valid_in s' q.
Proof.
  intros Hheap. destruct q as [q|]; [|done]. cbn. rewrite Hheap.
  rewrite lookup_insert_is_Some. destruct (decide (p = q)); auto.
Qed.

(** C5: with a desktop id that is not valid, [client_to_vdesk] returns
    without changing the state.  With a valid one it stores the id in the
    client, calls [client_show] when the id is the screen's current
    desktop or the fixed value and [client_hide] otherwise, publishes the
    desktop of the client, and calls [select_client] on the selected
    client. *)
Theorem client_to_vdesk_spec (p : ptr) (v : Z) (s : wm) :
  (valid_vdesk v = false → client_to_vdesk p v s = Some (tt, s)) ∧
  (valid_vdesk v = true →
   ∀ c, heap s !! p = Some c → valid_in s (current s) →
     let shown := (v =? s_vdesk (c_screen c)) || (v =? VDESK_FIXED) in
     ∃ s0 s1 s2 s',
       on_client p (set_vdesk v) s = Some (tt, s0) ∧
       (if shown then client_show p else client_hide p) s0 = Some (tt, s1) ∧
       call (ewmh_set_net_wm_desktop p) s1 = Some (tt, s2) ∧
       select_client (current s) s2 = Some (tt, s') ∧
       client_to_vdesk p v s = Some (tt, s') ∧
       vdesk <$> heap s' !! p = Some v ∧
       current s' = current s).
Proof.
  split; intros Hv; unfold client_to_vdesk; rewrite Hv; [done|].
  intros c Hp Hcur. cbn [when].
  set (shown := (v =? s_vdesk (c_screen c)) || (v =? VDESK_FIXED)).
  pose proof (on_client_run p (set_vdesk v) s c Hp) as H0.
  set (s0 := set_heap _ s) in H0.
  assert (Hp0 : heap s0 !! p = Some (set_vdesk v c))
    by apply lookup_insert_eq.
  assert (∃ s1, (if shown then client_show p else client_hide p) s0
                  = Some (tt, s1) ∧ current s1 = current s ∧
                vdesk <$> heap s1 !! p = Some v ∧
                ∃ c1, heap s1 = <[p := c1]> (heap s)) as (s1 & H1 & Hc1 & Hv1 & c1 & Hh1).
  { destruct shown.
    - eexists. split; [by apply client_show_run|]. cbn [current heap set_xlog].
      split; [done|]. rewrite Hp0. split; [done|]. by eexists.
    - eexists. split; [by apply client_hide_run|].
      cbn [current heap set_xlog set_heap s0].
      split; [done|]. rewrite lookup_insert_eq. split; [done|].
      eexists. apply insert_insert_eq. }
  pose proof (call_run (ewmh_set_net_wm_desktop p) s1) as H2.
  set (s2 := set_xlog _ s1) in H2.
  assert (Hcur2 : valid_in s2 (current s))
    by (by apply (valid_in_insert s s2 p c1)).
  assert (Hcur2' : valid_in s2 (current s2))
    by (cbn [current s2 set_xlog]; by rewrite Hc1).
  pose proof (select_client_run (current s) s2 Hcur2' Hcur2) as H3.
  exists s0, s1, s2. eexists.
  split; [exact H0|]. split; [exact H1|]. split; [exact H2|].
  split; [exact H3|]. split.
  - rewrite bind_run, H0, bind_run, (load_run p s0 _ Hp0), bind_run.
    replace ((vdesk (set_vdesk v c) =? s_vdesk (c_screen (set_vdesk v c)))
             || (vdesk (set_vdesk v c) =? VDESK_FIXED)) with shown
      by (by destruct c).
    rewrite H1, bind_run, H2, bind_run. unfold gets at 1.
    cbn [current s2 set_xlog]. by rewrite Hc1.
  - cbn [heap current set_xlog set_current s2]. done.
Qed.

(** ** remove_client *)

Lemma remove_client_run (p : ptr) (s : wm) (c : client) :
  heap s !! p = Some c → remove_client p s = Some (tt, removed p c s).
Proof.
  intros Hp. destruct s as [h t m k cur ign log]. cbn in Hp.
  unfold remove_client, removed, remove_requests, set_wm_state.
  set (c' := undo_geometry c).
  assert (Hrem : remove c' = remove c).
  { subst c'. unfold undo_geometry. cbn [remove set_x set_y].
    pose proof (client_gravitate_frame c (Int.neg (border c))) as F1.
    pose proof (client_gravitate_frame
                  (client_gravitate c (Int.neg (border c)))
                  (old_border (client_gravitate c (Int.neg (border c))))) as F2.
    cbv zeta in F1, F2. destruct F2 as (_&_&_&_&_&_&_&_&_&->).
    by destruct F1 as (_&_&_&_&_&_&_&_&_&->). }
  rewrite Hrem.
  assert (Hsym : bool_decide (Some p = cur) = bool_decide (cur = Some p))
    by (apply bool_decide_ext; split; congruence).
  simpl_state. rewrite ?Hsym.
  destruct (remove c =? 0) eqn:Hrm, (bool_decide (cur = Some p)) eqn:Hcur,
    (parent c' =? 0) eqn:Hpar;
    repeat (run; fold c';
            rewrite ?Hp, ?lookup_insert_eq, ?Hrem, ?Hsym, ?Hcur, ?Hrm, ?Hpar;
            cbn [negb]);
    rewrite ?delete_insert_eq; cbn [fmap list_fmap app];
    rewrite <- ?app_assoc; reflexivity.
Qed.

Lemma undo_geometry_frame (c : client) :
  let c' := undo_geometry c in
  window c' = window c ∧ parent c' = parent c ∧ c_screen c' = c_screen c ∧
  width c' = width c ∧ height c' = height c ∧ old_border c' = old_border c.
Proof.
  unfold undo_geometry. cbv zeta.
  cbn [window parent c_screen width height old_border set_x set_y].
  pose proof (client_gravitate_frame c (Int.neg (border c))) as F1.
  pose proof (client_gravitate_frame
                (client_gravitate c (Int.neg (border c)))
                (old_border (client_gravitate c (Int.neg (border c))))) as F2.
  cbv zeta in F1, F2.
  destruct F1 as (W1 & P1 & S1 & Wd1 & H1 & _ & O1 & _).
  destruct F2 as (W2 & P2 & S2 & Wd2 & H2 & _ & O2 & _).
  rewrite W2, P2, S2, Wd2, H2, O2. done.
Qed.

Lemma undo_geometry_xy (c : client) :
  let c1 := client_gravitate c (Int.neg (border c)) in
  let c2 := client_gravitate c1 (old_border c) in
  x (undo_geometry c) = Int.sub (x c2) (old_border c) ∧
  y (undo_geometry c) = Int.sub (y c2) (old_border c).
Proof.
  unfold undo_geometry. cbv zeta. cbn [x y old_border set_x set_y].
  pose proof (client_gravitate_frame c (Int.neg (border c))) as F1.
  pose proof (client_gravitate_frame
                (client_gravitate c (Int.neg (border c)))
                (old_border (client_gravitate c (Int.neg (border c))))) as F2.
  cbv zeta in F1, F2.
  destruct F1 as (_ & _ & _ & _ & _ & _ & O1 & _).
  destruct F2 as (_ & _ & _ & _ & _ & _ & O2 & _).
  by rewrite O2, O1.
Qed.

Lemma reparents_app (l1 l2 : list (Z * request)) :
  reparents (l1 ++ l2) = reparents l1 ++ reparents l2.
Proof. apply omap_app. Qed.

Lemma reparents_remove_requests (cur : option ptr) (p : ptr) (c : client) :
  reparents ((λ r, (1, r)) <$> remove_requests cur p c) =
    [(window (undo_geometry c), root (c_screen (undo_geometry c)),
      x (undo_geometry c), y (undo_geometry c))].
Proof.
  unfold remove_requests. cbv zeta.
  destruct (negb (remove c =? 0)), (bool_decide (Some p = cur)),
    (negb (parent (undo_geometry c) =? 0)),
    (negb (remove (undo_geometry c) =? 0)),
    (bool_decide (cur = Some p)); reflexivity.
Qed.

(** C1: [remove_client] moves the stored position by [client_gravitate]
    with the negated border width, then [client_gravitate] with the
    original border width, then takes the original border width off [x]
    and [y], and reparents the window to the root at the position so
    obtained; width and height are not changed.  For border 2, original
    border 1, south-east gravity and geometry (10,10,50,50) the offsets of
    the south-east row are (+2,+2) and (-1,-1), so that the window is
    reparented at (10,10) with width and height (50,50). *)
Theorem remove_client_geometry (p : ptr) (s : wm) (c : client) :
  heap s !! p = Some c →
  let c1 := client_gravitate c (Int.neg (border c)) in
  let c2 := client_gravitate c1 (old_border c) in
  let rx := Int.sub (x c2) (old_border c) in
  let ry := Int.sub (y c2) (old_border c) in
  (∃ s' new, remove_client p s = Some (tt, s') ∧ xlog s' = xlog s ++ new ∧
     reparents new = [(window c, root (c_screen c), rx, ry)]) ∧
  (width c2 = width c ∧ height c2 = height c) ∧
  (border c = 2 → old_border c = 1 → win_gravity c = SouthEastGravity →
   x c = 10 → y c = 10 → width c = 50 → height c = 50 →
   let o1 := gravity_offset SouthEast (- 2) in
   let o2 := gravity_offset SouthEast 1 in
   rx = 10 + o1.1 + o2.1 - 1 ∧ ry = 10 + o1.2 + o2.2 - 1 ∧
   (rx, ry) = (10, 10) ∧ (width c2, height c2) = (50, 50)).
Proof.
  intros Hp. cbv zeta.
  pose proof (undo_geometry_frame c) as (HW & _ & HS & HWd & HH & _).
  pose proof (undo_geometry_xy c) as (HX & HY). cbv zeta in HX, HY.
  pose proof (client_gravitate_frame c (Int.neg (border c))) as F1.
  pose proof (client_gravitate_frame
                (client_gravitate c (Int.neg (border c))) (old_border c)) as F2.
  cbv zeta in F1, F2.
  destruct F1 as (_ & _ & _ & Wd1 & H1 & _ & _ & G1 & _).
  destruct F2 as (_ & _ & _ & Wd2 & H2 & _ & _ & G2 & _).
  split; [|split].
  - eexists _, _. split; [by apply remove_client_run|].
    unfold removed. cbn [xlog]. split; [reflexivity|].
    change (?a :: ?l) with ([a] ++ l).
    rewrite reparents_app, reparents_remove_requests.
    rewrite HW, HS, HX, HY. reflexivity.
  - by rewrite Wd2, H2, Wd1, H1.
  - intros Hb Hob Hg Hx Hy Hw Hh.
    rewrite Wd2, H2, Wd1, H1, Hw, Hh.
    rewrite !client_gravitate_x, !client_gravitate_y, G1, Hg, Hb, Hob.
    unfold maximised_x, maximised_y.
    rewrite !client_gravitate_x, !client_gravitate_y.
    unfold maximised_x, maximised_y. rewrite Hx, Hy, Hg. cbn. done.
Qed.

(** Whatever the client, the requests end with the release of the grab and
    the flush. *)
Lemma remove_requests_end (cur : option ptr) (p : ptr) (c : client) :
  ∃ body, remove_requests cur p c = body ++ [XUngrabServer; XSync False_].
Proof.
  unfold remove_requests. cbv zeta.
  eexists. rewrite !(app_assoc _ _ [XUngrabServer; XSync False_]) at 1.
  reflexivity.
Qed.

(** C8 (as the code has it): [remove_client] ends by releasing the server
    grab and forcing a synchronous flush while X errors are still ignored,
    and only then stops ignoring them: its last two requests are
    [XUngrabServer] and [XSync], both issued with [ignore_xerror] at 1, and
    [ignore_xerror] is 0 when it returns. *)
Theorem remove_client_flush_then_reenable (p : ptr) (s : wm) (c : client) :
  heap s !! p = Some c →
  ∃ s' pre,
    remove_client p s = Some (tt, s') ∧
    xlog s' = xlog s ++ pre ++ [(1, XUngrabServer); (1, XSync False_)] ∧
    ((0, XSync False_) ∉ pre) ∧
    ignore_xerror s' = 0.
Proof.
  intros Hp.
  destruct (remove_requests_end (current s) p c) as (body & Hbody).
  exists (removed p c s), ((ignore_xerror s, XGrabServer) :: ((λ r, (1, r)) <$> body)).
  split; [by apply remove_client_run|].
  unfold removed. cbn [xlog ignore_xerror]. rewrite Hbody.
  split; [|split; [|done]].
  - by rewrite fmap_app.
  - rewrite elem_of_cons, list_elem_of_fmap.
    intros [Heq|(r & Heq & _)]; [|congruence]. discriminate.
Qed.

(** ** Further properties of client_gravitate *)

(** Equations between C [int] expressions, by their residues. *)
Ltac int_congruence :=
  unfold Int.add, Int.sub, Int.neg, Int.wrap, Int.modulus;
  Z.div_mod_to_equations; lia.

(** X1: two border changes in a row move an unsuppressed client as one
    change by their sum: [client_gravitate] with [a] and then with [b]
    leaves the same [x] and [y] as [client_gravitate] with [a + b], when the
    maximised-axis rule applies before neither call. *)
Theorem client_gravitate_compose (c : client) (a b : Z) :
  maximised_x c = false → maximised_y c = false →
  maximised_x (client_gravitate c a) = false →
  maximised_y (client_gravitate c a) = false →
  x (client_gravitate (client_gravitate c a) b)
    = x (client_gravitate c (Int.add a b)) ∧
  y (client_gravitate (client_gravitate c a) b)
    = y (client_gravitate c (Int.add a b)).
Proof.
  intros Hmx Hmy Hmx' Hmy'.
  pose proof (client_gravitate_frame c a) as (_ & _ & _ & _ & _ & _ & _ & Hg & _).
  rewrite (client_gravitate_x (client_gravitate c a)),
    (client_gravitate_y (client_gravitate c a)), Hmx', Hmy', Hg.
  rewrite !client_gravitate_x, !client_gravitate_y, Hmx, Hmy.
  unfold Int.add.
  destruct (effective_gravity (win_gravity c)); cbn [gravity_offset fst snd];
    rewrite !int_wrap_add_l, ?int_wrap_add_r, ?int_wrap_sub_r;
    split; f_equal; lia.
Qed.

Lemma maximised_x_gravitate (c : client) (d : Z) :
  maximised_x c = true →
  x (client_gravitate c d) = x c ∧ maximised_x (client_gravitate c d) = true.
Proof.
  intros Hm.
  pose proof (client_gravitate_frame c d) as (_ & _ & Hs & Hw & _).
  assert (Hx : x (client_gravitate c d) = x c)
    by (by rewrite client_gravitate_x, Hm).
  split; [done|]. unfold maximised_x in *. by rewrite Hx, Hw, Hs.
Qed.

Lemma maximised_y_gravitate (c : client) (d : Z) :
  maximised_y c = true →
  y (client_gravitate c d) = y c ∧ maximised_y (client_gravitate c d) = true.
Proof.
  intros Hm.
  pose proof (client_gravitate_frame c d) as (_ & _ & Hs & _ & Hh & _).
  assert (Hy : y (client_gravitate c d) = y c)
    by (by rewrite client_gravitate_y, Hm).
  split; [done|]. unfold maximised_y in *. by rewrite Hy, Hh, Hs.
Qed.

(** X2: a client maximised along an axis (at 0 and as wide, or as high,
    as the display) stays where it is on that axis through any sequence of
    border changes, whatever its gravity. *)
Theorem client_gravitate_maximised_stays (c : client) (ds : list Z) :
  (maximised_x c = true → x (foldl client_gravitate c ds) = 0) ∧
  (maximised_y c = true → y (foldl client_gravitate c ds) = 0).
Proof.
  split; intros Hm.
  - assert (maximised_x (foldl client_gravitate c ds) = true) as Hend.
    { revert c Hm. induction ds as [|d ds IH]; intros c Hm; [done|].
      cbn [foldl]. apply IH. by apply maximised_x_gravitate. }
    unfold maximised_x in Hend. apply andb_true_iff in Hend as [Hx _].
    by apply Z.eqb_eq in Hx.
  - assert (maximised_y (foldl client_gravitate c ds) = true) as Hend.
    { revert c Hm. induction ds as [|d ds IH]; intros c Hm; [done|].
      cbn [foldl]. apply IH. by apply maximised_y_gravitate. }
    unfold maximised_y in Hend. apply andb_true_iff in Hend as [Hy _].
    by apply Z.eqb_eq in Hy.
Qed.

(** X3: the position [remove_client] restores, in closed form.  When the
    maximised-axis rule applies before neither of the two calls, lines
    349-353 leave [x + ox - old_border] and [y + oy - old_border] (as C
    [int]s), [(ox, oy)] being the table offset of the client's gravity for
    the difference [old_border - border]; with equal border widths this is
    [(x - old_border, y - old_border)] whatever the gravity. *)
Theorem undo_geometry_closed_form (c : client) :
  let c1 := client_gravitate c (Int.neg (border c)) in
  let o := gravity_offset (effective_gravity (win_gravity c))
             (old_border c - border c) in
  maximised_x c = false → maximised_y c = false →
  maximised_x c1 = false → maximised_y c1 = false →
  (x (undo_geometry c) = Int.wrap (x c + o.1 - old_border c) ∧
   y (undo_geometry c) = Int.wrap (y c + o.2 - old_border c)) ∧
  (border c = old_border c →
   x (undo_geometry c) = Int.wrap (x c - old_border c) ∧
   y (undo_geometry c) = Int.wrap (y c - old_border c)).
Proof using DisplayWidth DisplayHeight.
  clear valid_vdesk. cbv zeta. intros Hmx Hmy Hmx' Hmy'.
  pose proof (undo_geometry_xy c) as (HX & HY). cbv zeta in HX, HY.
  pose proof (client_gravitate_frame c (Int.neg (border c)))
    as (_ & _ & _ & _ & _ & _ & _ & Hg & _).
  assert (Hform :
    x (undo_geometry c) = Int.wrap (x c +
      (gravity_offset (effective_gravity (win_gravity c))
         (old_border c - border c)).1 - old_border c) ∧
    y (undo_geometry c) = Int.wrap (y c +
      (gravity_offset (effective_gravity (win_gravity c))
         (old_border c - border c)).2 - old_border c)).
  { rewrite HX, HY.
    rewrite (client_gravitate_x (client_gravitate c (Int.neg (border c)))),
      (client_gravitate_y (client_gravitate c (Int.neg (border c)))),
      Hmx', Hmy', Hg.
    rewrite !client_gravitate_x, !client_gravitate_y, Hmx, Hmy.
    destruct (effective_gravity (win_gravity c)); cbn [gravity_offset fst snd];
      split; int_congruence. }
  split; [exact Hform|].
  intros Hb. destruct Hform as [-> ->]. rewrite Hb.
  destruct (effective_gravity (win_gravity c)); cbn [gravity_offset fst snd];
    split; f_equal; lia.
Qed.

(** ** Further properties of get_wm_normal_hints *)

(** X4: whatever the hints, the client ends with non-zero increments: a
    zero component of a resize-increment hint becomes 1, a non-zero one is
    kept, and without the hint both are 1.  Code that divides by the
    increments therefore never divides by zero. *)
Theorem get_wm_normal_hints_inc_nonzero (size : XSizeHints) (c : client) :
  let c' := (get_wm_normal_hints size c).2 in
  (width_inc c' ≠ 0 ∧ height_inc c' ≠ 0) ∧
  (has_flag (sh_flags size) PResizeInc = true →
   (sh_width_inc size ≠ 0 → width_inc c' = sh_width_inc size) ∧
   (sh_height_inc size ≠ 0 → height_inc c' = sh_height_inc size) ∧
   (sh_width_inc size = 0 → width_inc c' = 1) ∧
   (sh_height_inc size = 0 → height_inc c' = 1)) ∧
  (has_flag (sh_flags size) PResizeInc = false →
   width_inc c' = 1 ∧ height_inc c' = 1).
Proof using Type.
  cbv zeta. split; [apply get_wm_normal_hints_increments|].
  unfold get_wm_normal_hints; cbn. split; intros ->; [|done].
  destruct (Z.eqb_spec (sh_width_inc size) 0),
    (Z.eqb_spec (sh_height_inc size) 0); repeat split; intros; congruence.
Qed.

(** ** Further properties of client_monitor *)

(** X5: the monitor [client_monitor] returns exists whenever the screen
    has a monitor at all, and it is either a monitor the center is inside
    of, with no such monitor before it, or monitor 0 while the center is
    inside no monitor. *)
Theorem client_monitor_sound (c : client) :
  let ms := monitors (c_screen c) in
  let inside := is_inside (midx_of c) (midy_of c) in
  (ms ≠ [] → (client_monitor c < length ms)%nat) ∧
  ((∃ m, ms !! client_monitor c = Some m ∧ inside m = true ∧
         ∀ j m', ms !! j = Some m' → (j < client_monitor c)%nat →
                 inside m' = false) ∨
   (client_monitor c = 0%nat ∧ ∀ m, m ∈ ms → inside m = false)).
Proof using Type.
  cbv zeta. rewrite client_monitor_find.
  destruct (list_find _ _) as [[i m]|] eqn:Hfind.
  - apply list_find_Some in Hfind as (Hi & Hm & Hbefore). split.
    + intros _. by eapply lookup_lt_Some.
    + left. exists m. repeat split; [done..|].
      intros j m' Hj Hlt. apply not_true_is_false. by eapply Hbefore.
  - apply list_find_None in Hfind. rewrite Forall_forall in Hfind. split.
    + intros Hne. destruct (monitors (c_screen c)); [done|]. cbn. lia.
    + right. split; [done|]. intros m Hm. apply not_true_is_false. auto.
Qed.

(** X6: when the monitors do not overlap (no point is inside two of them),
    the order of the list does not matter: the client is assigned the one
    monitor its center is inside of. *)
Theorem client_monitor_disjoint (c : client) (i : nat) (m : monitor) :
  let ms := monitors (c_screen c) in
  (∀ j k mj mk px py, ms !! j = Some mj → ms !! k = Some mk → j ≠ k →
     is_inside px py mj = true → is_inside px py mk = false) →
  ms !! i = Some m →
  is_inside (midx_of c) (midy_of c) m = true →
  client_monitor c = i.
Proof using Type.
  cbv zeta. intros Hdisjoint Hi Hm.
  apply (client_monitor_first c i m Hi Hm).
  intros j m' Hj Hlt.
  destruct (is_inside (midx_of c) (midy_of c) m') eqn:Hin; [|done].
  rewrite (Hdisjoint j i m' m _ _ Hj Hi) in Hm; [done|lia|done].
Qed.

(** ** find_client *)

Lemma find_client_loop_find (w : Window) (l : list ptr) (s : wm) :
  Forall (λ p, is_Some (heap s !! p)) l →
  find_client_loop w l s =
    Some ((λ r, r.2) <$> list_find (λ p, has_handle s w p = true) l, s).
Proof using Type.
  induction l as [|p l IH]; intros Hl; [done|].
  apply Forall_cons in Hl as [[c Hp] Hl].
  cbn [find_client_loop list_find]. rewrite bind_run, (load_run p s c Hp).
  assert (Hh : has_handle s w p = (w =? parent c) || (w =? window c))
    by (unfold has_handle; by rewrite Hp).
  destruct ((w =? parent c) || (w =? window c)).
  - by rewrite decide_True.
  - rewrite decide_False by (by rewrite Hh). rewrite IH by done.
    by destruct (list_find _ l) as [[i q]|].
Qed.

Lemma find_client_find (w : Window) (s : wm) :
  tab_order_allocated s →
  find_client w s =
    Some ((λ r, r.2) <$> list_find (λ p, has_handle s w p = true)
                           (clients_tab_order s), s).
Proof using Type.
  intros Hall. unfold find_client. rewrite bind_run. cbn [gets].
  by apply find_client_loop_find.
Qed.

(** X7: [find_client] changes nothing and, when every client of the
    tab-order list is allocated, returns the first client of that list
    that has [w] as its window or its frame, and [NULL] exactly when none
    has. *)
Theorem find_client_first (w : Window) (s : wm) :
  tab_order_allocated s →
  ∃ r, find_client w s = Some (r, s) ∧
       match r with
       | Some p =>
           ∃ i, clients_tab_order s !! i = Some p ∧
                has_handle s w p = true ∧
                ∀ j q, clients_tab_order s !! j = Some q → (j < i)%nat →
                       has_handle s w q = false
       | None => ∀ p, p ∈ clients_tab_order s → has_handle s w p = false
       end.
Proof using Type.
  intros Hall. rewrite find_client_find by done.
  eexists. split; [reflexivity|].
  destruct (list_find _ _) as [[i p]|] eqn:Hfind; cbn.
  - apply list_find_Some in Hfind as (Hi & Hp & Hbefore).
    exists i. repeat split; [done..|].
    intros j q Hj Hlt. apply not_true_is_false. by eapply Hbefore.
  - apply list_find_None in Hfind. rewrite Forall_forall in Hfind.
    intros p Hp. apply not_true_is_false. auto.
Qed.

(** X8: in a registry whose clients are allocated and have pairwise
    different handles, looking up the window or the frame of a listed
    client returns that client. *)
Theorem find_client_unique (s : wm) (p : ptr) (c : client) :
  tab_order_allocated s → handles_distinct s →
  p ∈ clients_tab_order s → heap s !! p = Some c →
  find_client (window c) s = Some (Some p, s) ∧
  find_client (parent c) s = Some (Some p, s).
Proof using Type.
  intros Hall Hdist Hin Hp.
  apply list_elem_of_lookup in Hin as [k Hk].
  assert (∀ w, has_handle s w p = true →
            (∀ j q cq, clients_tab_order s !! j = Some q → j ≠ k →
                       heap s !! q = Some cq →
                       w ≠ window cq ∧ w ≠ parent cq) →
            find_client w s = Some (Some p, s)) as Hfind.
  { intros w Hw Hother.
    rewrite find_client_find by done.
    destruct (list_find _ _) as [[i q]|] eqn:Hlist; cbn.
    - apply list_find_Some in Hlist as (Hi & Hq & _).
      destruct (decide (i = k)) as [->|Hne]; [by simplify_eq|].
      unfold has_handle in Hq. destruct (heap s !! q) as [cq|] eqn:Hcq; [|done].
      destruct (Hother i q cq Hi Hne Hcq) as [Hwin Hpar].
      apply orb_true_iff in Hq as [Hq|Hq]; apply Z.eqb_eq in Hq; done.
    - apply list_find_None in Hlist. rewrite Forall_forall in Hlist.
      destruct (Hlist p); [by eapply list_elem_of_lookup_2 | done]. }
  split; apply Hfind.
  - unfold has_handle. rewrite Hp, Z.eqb_refl. apply orb_true_r.
  - intros j q cq Hj Hne Hq.
    destruct (Hdist k j p q c cq Hk Hj Hp Hq) as (? & ? & ? & ?); [done|].
    done.
  - unfold has_handle. by rewrite Hp, Z.eqb_refl.
  - intros j q cq Hj Hne Hq.
    destruct (Hdist k j p q c cq Hk Hj Hp Hq) as (? & ? & ? & ?); [done|].
    done.
Qed.

(** ** send_wm_delete *)

(** The counter of the loop is the number of matching entries, as long as
    it fits an [int]. *)
Lemma count_protocol_spec (atom : Z) (l : list Z) (found : Z) :
  0 <= found → found + Z.of_nat (length l) <= Int.max_signed →
  found <= count_protocol atom l found <= found + Z.of_nat (length l) ∧
  (count_protocol atom l found = found ↔ atom ∉ l).
Proof using Type.
  revert found. induction l as [|a l IH]; intros found H0 Hmax.
  - cbn. split; [lia|]. split; [intros _; apply not_elem_of_nil|done].
  - cbn [count_protocol length] in *. rewrite Nat2Z.inj_succ in Hmax.
    destruct (Z.eqb_spec a atom) as [->|Hne].
    + assert (Int.add found 1 = found + 1) as ->.
      { apply int_wrap_id. unfold Int.in_range, Int.min_signed,
          Int.max_signed in *. lia. }
      destruct (IH (found + 1)) as [Hb _]; [lia..|].
      split; [lia|]. split; [lia|]. intros Hnot. destruct Hnot. left.
    + destruct (IH found) as [Hb Hiff]; [lia..|].
      split; [lia|]. rewrite Hiff, not_elem_of_cons.
      split; [intros Hl; split; [by intros ->|done] | by intros [_ Hl]].
Qed.

(** X9: [send_wm_delete] issues one request.  It is the
    [WM_DELETE_WINDOW] client message (format 32, [data.l[0]] the atom,
    [data.l[1]] [CurrentTime], sent to the client's window) exactly when
    the kill is not forced, [XGetWMProtocols] succeeds and the window lists
    [WM_DELETE_WINDOW] among its protocols; in every other case the client
    is killed with [XKillClient]. *)
Theorem send_wm_delete_graceful_iff (X : atoms) (protocols : option (list Z))
    (c : client) (kill_client : Z) :
  (∀ l, protocols = Some l → Z.of_nat (length l) <= Int.max_signed) →
  let graceful :=
    XSendEvent_ClientMessage (window c) False_ NoEventMask (window c)
      (WM_PROTOCOLS X) 32 (WM_DELETE_WINDOW X) CurrentTime in
  let r := send_wm_delete X protocols c kill_client in
  (r = graceful ∨ r = XKillClient (window c)) ∧
  (r = graceful ↔
   kill_client = 0 ∧ ∃ l, protocols = Some l ∧ WM_DELETE_WINDOW X ∈ l).
Proof using Type.
  intros Hlen. cbv zeta. unfold send_wm_delete, send_xmessage.
  destruct (Z.eqb_spec kill_client 0) as [Hk|Hk].
  - destruct protocols as [l|].
    + destruct (count_protocol_spec (WM_DELETE_WINDOW X) l 0) as [_ Hiff];
        [lia | specialize (Hlen l eq_refl); lia |].
      destruct (Z.eqb_spec (count_protocol (WM_DELETE_WINDOW X) l 0) 0)
        as [H0|H0]; cbn [negb].
      * split; [by right|]. split; [done|].
        intros (_ & l' & [= <-] & Hin). by apply Hiff in H0.
      * split; [by left|]. split; [|done]. intros _. split; [done|].
        exists l. split; [done|].
        destruct (decide (WM_DELETE_WINDOW X ∈ l)) as [|Hnot]; [done|].
        by apply Hiff in Hnot.
    + cbn. split; [by right|]. split; [done|]. by intros (_ & l & [=] & _).
  - cbn. split; [by right|]. split; [done|]. by intros [? _].
Qed.

(** ** Further properties of select_client *)

Lemma wm_state_of_app (l1 l2 : list (Z * request)) (w : Window) :
  wm_state_of (l1 ++ l2) w =
    match wm_state_of l2 w with
    | Some st => Some st
    | None => wm_state_of l1 w
    end.
Proof using Type.
  induction l1 as [|[ign r] l1 IH]; cbn [app wm_state_of].
  - by destruct (wm_state_of l2 w).
  - destruct r; rewrite ?IH; try done.
    by destruct (wm_state_of l2 w), (wm_state_of l1 w).
Qed.


(** X11: selecting the client that is already selected keeps it selected
    and its frame in the active colour (the fixed colour if it is fixed):
    the inactive colour the call sets first is overwritten. *)
Theorem select_client_again (s : wm) (p : ptr) (c : client) :
  current s = Some p → heap s !! p = Some c →
  ∃ s', select_client (Some p) s = Some (tt, s') ∧
        current s' = Some p ∧
        border_pixel_of (xlog s') (parent c)
          = Some (if is_fixed c then fc (c_screen c) else fg (c_screen c)).
Proof.
  intros Hcur Hp. eexists. split.
  - apply select_client_run; rewrite ?Hcur; by eapply valid_in_Some.
  - cbn [current xlog set_xlog set_current]. split; [done|].
    unfold select_requests. rewrite Hcur. cbn [mbind option_bind].
    rewrite Hp. unfold issued. cbn [fmap list_fmap app].
    rewrite border_pixel_of_app. cbn [border_pixel_of].
    by rewrite Z.eqb_refl.
Qed.

(** ** Further properties of client_to_vdesk *)

(** The state before the final [select_client] of [client_to_vdesk], and
    the state it returns. *)
Lemma client_to_vdesk_run (p : ptr) (v : Z) (s : wm) (c : client) :
  valid_vdesk v = true → heap s !! p = Some c → valid_in s (current s) →
  let shown := (v =? s_vdesk (c_screen c)) || (v =? VDESK_FIXED) in
  let c' := if shown then set_vdesk v c
            else set_ignore_unmap (Int.add (ignore_unmap c) 1) (set_vdesk v c) in
  let visibility :=
    if shown
    then [XMapWindow (parent c);
          XChangeProperty_WM_STATE (window c) [NormalState; None_]]
    else [XUnmapWindow (parent c);
          XChangeProperty_WM_STATE (window c) [IconicState; None_]] in
  let s2 := set_xlog (xlog s ++ issued s (visibility ++
                                           [ewmh_set_net_wm_desktop p]))
              (set_heap (<[p := c']> (heap s)) s) in
  client_to_vdesk p v s =
    Some (tt, set_xlog (xlog s2 ++ issued s2 (select_requests s2 (current s)))
                s2).
Proof.
  intros Hv Hp Hcur. cbv zeta. unfold client_to_vdesk. rewrite Hv. cbn [when].
  rewrite bind_run, (on_client_run p (set_vdesk v) s c Hp).
  set (s0 := set_heap _ s).
  assert (Hp0 : heap s0 !! p = Some (set_vdesk v c))
    by apply lookup_insert_eq.
  rewrite bind_run, (load_run p s0 _ Hp0), bind_run.
  replace ((vdesk (set_vdesk v c) =? s_vdesk (c_screen (set_vdesk v c)))
           || (vdesk (set_vdesk v c) =? VDESK_FIXED))
    with ((v =? s_vdesk (c_screen c)) || (v =? VDESK_FIXED))
    by (by destruct c).
  replace (parent c) with (parent (set_vdesk v c)) by (by destruct c).
  replace (window c) with (window (set_vdesk v c)) by (by destruct c).
  destruct ((v =? s_vdesk (c_screen c)) || (v =? VDESK_FIXED)).
  - rewrite (client_show_run p s0 _ Hp0), bind_run, call_run, bind_run.
    unfold gets at 1. cbn [current set_xlog].
    rewrite select_client_run.
    + destruct s as [h t m k cur ign log]. subst s0.
      unfold set_xlog, set_current, set_heap, issued; cbn.
      rewrite <- !app_assoc. cbn.
      destruct c; reflexivity.
    + cbn [current heap set_xlog]. eapply valid_in_insert; [|exact Hcur].
      reflexivity.
    + cbn [current heap set_xlog]. eapply valid_in_insert; [|exact Hcur].
      reflexivity.
  - rewrite (client_hide_run p s0 _ Hp0), bind_run, call_run, bind_run.
    unfold gets at 1. cbn [current set_xlog set_heap].
    rewrite select_client_run.
    + destruct s as [h t m k cur ign log]. subst s0.
      unfold set_xlog, set_current, set_heap, issued; cbn.
      rewrite !insert_insert_eq, <- !app_assoc. cbn.
      destruct c; reflexivity.
    + eapply valid_in_insert; [|exact Hcur].
      cbn [heap set_xlog set_heap s0]. apply insert_insert_eq.
    + eapply valid_in_insert; [|exact Hcur].
      cbn [heap set_xlog set_heap s0]. apply insert_insert_eq.
Qed.

Lemma wm_state_of_no_request (l : list (Z * request)) (w : Window) :
  Forall (λ e, is_wm_state_request e.2 = false) l → wm_state_of l w = None.
Proof using Type.
  induction 1 as [|[ign r] l Hr _ IH]; [done|].
  cbn [wm_state_of]. destruct r; try done.
Qed.

Lemma select_requests_no_wm_state (s : wm) (c : option ptr) (ign : Z) :
  Forall (λ e, is_wm_state_request e.2 = false)
    ((λ r, (ign, r)) <$> select_requests s c).
Proof.
  unfold select_requests.
  destruct (current s ≫= _), (c ≫= _), (current s), c;
    cbn; repeat constructor.
Qed.

(** X12: moving the selected client to another desktop repaints its
    frame, because the final [select_client(current)] reads the client
    record after the move: the frame ends in the fixed colour when the new
    desktop is [VDESK_FIXED] and in the active colour otherwise. *)
Theorem client_to_vdesk_repaints_selected (p : ptr) (v : Z) (s : wm)
    (c : client) :
  valid_vdesk v = true → heap s !! p = Some c → current s = Some p →
  ∃ s', client_to_vdesk p v s = Some (tt, s') ∧
        current s' = Some p ∧
        border_pixel_of (xlog s') (parent c)
          = Some (if v =? VDESK_FIXED then fc (c_screen c)
                  else fg (c_screen c)).
Proof.
  intros Hv Hp Hcur. eexists. split.
  - apply (client_to_vdesk_run p v s c Hv Hp).
    rewrite Hcur. by eapply valid_in_Some.
  - cbn [current xlog set_xlog set_heap]. split; [done|].
    unfold select_requests.
    cbn [current heap xlog set_xlog set_heap]. rewrite Hcur.
    cbn [mbind option_bind]. rewrite lookup_insert_eq.
    set (c' := if (v =? s_vdesk (c_screen c)) || (v =? VDESK_FIXED)
               then set_vdesk v c
               else set_ignore_unmap (Int.add (ignore_unmap c) 1)
                      (set_vdesk v c)).
    assert (parent c' = parent c ∧ c_screen c' = c_screen c ∧
            is_fixed c' = (v =? VDESK_FIXED)) as (Hpar & Hscr & Hfix)
      by (subst c'; destruct (_ || _); by destruct c).
    rewrite border_pixel_of_app. unfold issued at 1.
    cbn [app fmap list_fmap border_pixel_of].
    by rewrite Hpar, Z.eqb_refl, Hfix, Hscr.
Qed.

(** X13: a valid [client_to_vdesk] changes, in the client, the desktop
    and, when the client gets hidden, the unmap counter (one more), and
    nothing else; no other client and no list changes; the [WM_STATE] last
    published for the window is [NormalState] when the new desktop is the
    screen's current one or [VDESK_FIXED], and [IconicState] otherwise. *)
Theorem client_to_vdesk_visibility (p : ptr) (v : Z) (s : wm) (c : client) :
  valid_vdesk v = true → heap s !! p = Some c → valid_in s (current s) →
  let shown := (v =? s_vdesk (c_screen c)) || (v =? VDESK_FIXED) in
  ∃ s', client_to_vdesk p v s = Some (tt, s') ∧
        heap s' = <[p := if shown then set_vdesk v c
                         else set_ignore_unmap (Int.add (ignore_unmap c) 1)
                                (set_vdesk v c)]> (heap s) ∧
        clients_tab_order s' = clients_tab_order s ∧
        clients_mapping_order s' = clients_mapping_order s ∧
        clients_stacking_order s' = clients_stacking_order s ∧
        wm_state_of (xlog s') (window c)
          = Some (if shown then NormalState else IconicState).
Proof.
  intros Hv Hp Hcur. cbv zeta. eexists.
  split; [by apply (client_to_vdesk_run p v s c)|].
  cbn [heap clients_tab_order clients_mapping_order clients_stacking_order
       xlog set_xlog set_heap].
  repeat split.
  rewrite wm_state_of_app.
  rewrite (wm_state_of_no_request (issued _ _))
    by apply select_requests_no_wm_state.
  rewrite wm_state_of_app.
  destruct ((v =? s_vdesk (c_screen c)) || (v =? VDESK_FIXED));
    unfold issued; cbn; by rewrite Z.eqb_refl.
Qed.

(** ** Further properties of client_hide and client_show *)


(** ** Further properties of remove_client *)

(** X15: [remove_client] frees the client and nothing else: the other
    clients are as before, the selection is cleared exactly when it was
    the removed client, so that [current] never designates the freed
    record, and a [select_client] on a remaining client that follows runs
    without touching it. *)
Theorem remove_client_frees (p : ptr) (s : wm) (c : client) :
  heap s !! p = Some c → valid_in s (current s) →
  ∃ s', remove_client p s = Some (tt, s') ∧
        heap s' = delete p (heap s) ∧
        current s' = (if bool_decide (current s = Some p) then None
                      else current s) ∧
        current s' ≠ Some p ∧
        valid_in s' (current s') ∧
        ∀ q cq, q ≠ p → heap s !! q = Some cq →
          ∃ s'', (remove_client p;; select_client (Some q)) s
                   = Some (tt, s'') ∧
                 current s'' = Some q ∧ heap s'' = delete p (heap s).
Proof.
  intros Hp Hcur.
  assert (Hvalid : valid_in (removed p c s) (current (removed p c s))).
  { unfold removed. cbn [current heap].
    case_bool_decide as Hsel; [done|].
    destruct (current s) as [q|] eqn:Hq; [|done].
    cbn in *. rewrite lookup_delete_ne by congruence. done. }
  exists (removed p c s). split; [by apply remove_client_run|].
  split; [done|]. split; [done|]. split; [|split; [done|]].
  - unfold removed. cbn [current]. case_bool_decide; congruence.
  - intros q cq Hne Hq. eexists. split.
    + rewrite bind_run, (remove_client_run p s c Hp).
      apply select_client_run; [done|].
      cbn. rewrite lookup_delete_ne by done. by rewrite Hq.
    + done.
Qed.

(** X16: every request [remove_client] makes after grabbing the server is
    made with [ignore_xerror] at 1, whatever the flag was before; the
    server is grabbed once, as the first request, and released once. *)
Theorem remove_client_suppression_window (p : ptr) (s : wm) (c : client) :
  heap s !! p = Some c →
  ∃ s' rest,
    remove_client p s = Some (tt, s') ∧
    xlog s' = xlog s ++ (ignore_xerror s, XGrabServer) :: rest ∧
    Forall (λ e, e.1 = 1) rest ∧
    select_entries is_grab_request rest = [(1, XUngrabServer)].
Proof.
  intros Hp. eexists _, _. split; [by apply remove_client_run|].
  unfold removed. cbn [xlog]. split; [reflexivity|]. split.
  - apply Forall_fmap. by apply Forall_true.
  - unfold remove_requests, select_entries. cbv zeta.
    destruct (negb (remove c =? 0)), (bool_decide (Some p = current s)),
      (negb (parent (undo_geometry c) =? 0)),
      (negb (remove (undo_geometry c) =? 0)),
      (bool_decide (current s = Some p)); reflexivity.
Qed.

Lemma remove_flag_undo_geometry (c : client) :
  remove (undo_geometry c) = remove c.
Proof.
  unfold undo_geometry. cbn [remove set_x set_y].
  pose proof (client_gravitate_frame c (Int.neg (border c))) as F1.
  pose proof (client_gravitate_frame
                (client_gravitate c (Int.neg (border c)))
                (old_border (client_gravitate c (Int.neg (border c))))) as F2.
  cbv zeta in F1, F2. destruct F2 as (_&_&_&_&_&_&_&_&_&->).
  by destruct F1 as (_&_&_&_&_&_&_&_&_&->).
Qed.

(** X17: when the window manager is quitting ([c->remove] is 0),
    [remove_client] leaves the published state alone: it writes no
    [WM_STATE], does not withdraw the EWMH properties, republishes no
    client list and does not move the input focus; it strips the allowed
    actions instead. *)
Theorem remove_client_quitting (p : ptr) (s : wm) (c : client) :
  heap s !! p = Some c → remove c = 0 →
  ∃ s' new,
    remove_client p s = Some (tt, s') ∧ xlog s' = xlog s ++ new ∧
    (∀ w, wm_state_of (xlog s') w = wm_state_of (xlog s) w) ∧
    select_entries is_client_list_request new = [] ∧
    select_entries is_focus_request new = [] ∧
    ((1, ewmh_remove_allowed_actions p) ∈ new) ∧
    ((1, ewmh_withdraw_client p) ∉ new).
Proof.
  intros Hp Hrm. eexists _, _. split; [by apply remove_client_run|].
  unfold removed. cbn [xlog]. split; [reflexivity|].
  unfold remove_requests, select_entries. cbv zeta.
  rewrite remove_flag_undo_geometry, Hrm. cbn [Z.eqb negb].
  destruct (negb (parent (undo_geometry c) =? 0)),
    (bool_decide (current s = Some p));
    (split; [intros w; rewrite wm_state_of_app; reflexivity|]);
    (split; [reflexivity|]); (split; [reflexivity|]);
    (split; [cbn; rewrite !elem_of_cons; auto|]);
    cbn; rewrite !elem_of_cons, elem_of_nil; intros Hin;
    repeat (destruct Hin as [Hin|Hin]; [discriminate Hin|]); done.
Qed.

(** X18: when the window is withdrawn ([c->remove] is not 0),
    [remove_client] publishes [WithdrawnState] for it, republishes the
    client list and then the stacking list of its screen, and moves the
    input focus to [PointerRoot] exactly when the client was selected. *)
Theorem remove_client_withdrawing (p : ptr) (s : wm) (c : client) :
  heap s !! p = Some c → remove c ≠ 0 →
  ∃ s' new,
    remove_client p s = Some (tt, s') ∧ xlog s' = xlog s ++ new ∧
    wm_state_of (xlog s') (window c) = Some WithdrawnState ∧
    select_entries is_client_list_request new =
      [(1, ewmh_set_net_client_list (s_screen (c_screen c)));
       (1, ewmh_set_net_client_list_stacking (s_screen (c_screen c)))] ∧
    select_entries is_focus_request new =
      (if bool_decide (current s = Some p)
       then [(1, XSetInputFocus PointerRoot RevertToPointerRoot CurrentTime)]
       else []) ∧
    ((1, ewmh_remove_allowed_actions p) ∉ new).
Proof.
  intros Hp Hrm. eexists _, _. split; [by apply remove_client_run|].
  unfold removed. cbn [xlog]. split; [reflexivity|].
  pose proof (undo_geometry_frame c) as (_ & _ & HS & _).
  unfold remove_requests, select_entries. cbv zeta.
  rewrite remove_flag_undo_geometry, HS.
  apply Z.eqb_neq in Hrm. rewrite Hrm. cbn [negb].
  assert (Hsym : bool_decide (Some p = current s)
                 = bool_decide (current s = Some p))
    by (apply bool_decide_ext; split; congruence).
  rewrite Hsym.
  destruct (negb (parent (undo_geometry c) =? 0)),
    (bool_decide (current s = Some p));
    (split; [rewrite wm_state_of_app; cbn; by rewrite Z.eqb_refl|]);
    (split; [reflexivity|]); (split; [reflexivity|]);
    cbn; rewrite !elem_of_cons, elem_of_nil; intros Hin;
    repeat (destruct Hin as [Hin|Hin]; [discriminate Hin|]); done.
Qed.

(** ** The format of WM_STATE *)

Lemma wm_state_two_values_Forall (l : list (Z * request)) :
  Forall (λ e, match e.2 with
               | XChangeProperty_WM_STATE _ data => ∃ st, data = [st; None_]
               | _ => True
               end) l →
  wm_state_two_values l.
Proof using Type.
  rewrite Forall_forall. intros Hall ign w data Hin.
  exact (Hall _ Hin).
Qed.

Lemma wm_state_two_values_app (l1 l2 : list (Z * request)) :
  wm_state_two_values l1 → wm_state_two_values l2 →
  wm_state_two_values (l1 ++ l2).
Proof using Type.
  intros H1 H2 ign w data Hin. apply elem_of_app in Hin as [Hin|Hin]; eauto.
Qed.

(** X19: the [WM_STATE] property always has its two 32-bit values, the
    state and [None]: if every [WM_STATE] written so far has this form, so
    has every one written after [client_show], [client_hide],
    [client_to_vdesk], [select_client] or [remove_client]. *)
Theorem wm_state_two_values_kept (p : ptr) (s : wm) (c : client) :
  heap s !! p = Some c → valid_in s (current s) →
  wm_state_two_values (xlog s) →
  (∀ s', client_show p s = Some (tt, s') → wm_state_two_values (xlog s')) ∧
  (∀ s', client_hide p s = Some (tt, s') → wm_state_two_values (xlog s')) ∧
  (∀ v s', client_to_vdesk p v s = Some (tt, s') →
           wm_state_two_values (xlog s')) ∧
  (∀ q s', valid_in s q → select_client q s = Some (tt, s') →
           wm_state_two_values (xlog s')) ∧
  (∀ s', remove_client p s = Some (tt, s') → wm_state_two_values (xlog s')).
Proof.
  intros Hp Hcur Hinv.
  assert (Hsel : ∀ s0 q ign, wm_state_two_values
                   ((λ r, (ign, r)) <$> select_requests s0 q)).
  { intros s0 q ign. apply wm_state_two_values_Forall.
    unfold select_requests.
    destruct (current s0 ≫= _), (q ≫= _), (current s0), q;
      cbn; repeat constructor. }
  split; [|split; [|split; [|split]]].
  - intros s' Hrun. rewrite (client_show_run p s c Hp) in Hrun.
    injection Hrun as <-. cbn [xlog set_xlog].
    apply wm_state_two_values_app; [done|].
    apply wm_state_two_values_Forall. repeat constructor. cbn. eauto.
  - intros s' Hrun. rewrite (client_hide_run p s c Hp) in Hrun.
    injection Hrun as <-. cbn [xlog set_xlog].
    apply wm_state_two_values_app; [done|].
    apply wm_state_two_values_Forall. repeat constructor. cbn. eauto.
  - intros v s' Hrun. destruct (valid_vdesk v) eqn:Hv.
    + rewrite (client_to_vdesk_run p v s c Hv Hp Hcur) in Hrun.
      injection Hrun as <-. cbn [xlog set_xlog].
      repeat apply wm_state_two_values_app; [done| |apply Hsel].
      apply wm_state_two_values_Forall.
      destruct ((v =? s_vdesk (c_screen c)) || (v =? VDESK_FIXED));
        repeat constructor; cbn; eauto.
    + unfold client_to_vdesk in Hrun. rewrite Hv in Hrun.
      by injection Hrun as <-.
  - intros q s' Hq Hrun. rewrite select_client_run in Hrun by done.
    injection Hrun as <-. cbn [xlog set_xlog].
    apply wm_state_two_values_app; [done|apply Hsel].
  - intros s' Hrun. rewrite (remove_client_run p s c Hp) in Hrun.
    injection Hrun as <-. unfold removed. cbn [xlog].
    apply wm_state_two_values_app; [done|].
    apply wm_state_two_values_Forall. constructor; [done|].
    unfold remove_requests. cbv zeta.
    destruct (negb (remove c =? 0)), (bool_decide (Some p = current s)),
      (negb (parent (undo_geometry c) =? 0)),
      (negb (remove (undo_geometry c) =? 0)),
      (bool_decide (current s = Some p));
      repeat constructor; cbn; eauto.
Qed.

(** ** parse_modifiers *)

Lemma strtok_tokens_delim (acc s1 : string) (d : Ascii.ascii) (s2 : string) :
  is_delim d = true →
  strtok_tokens acc (s1 +:+ String d s2)
    = strtok_tokens acc s1 ++ strtok_tokens "" s2.
Proof using Type.
  intros Hd. revert acc. induction s1 as [|a s1 IH]; intros acc.
  - change ("" +:+ String d s2)%string with (String d s2).
    cbn [strtok_tokens]. by rewrite Hd.
  - change (String a s1 +:+ String d s2)%string
      with (String a (s1 +:+ String d s2)).
    cbn [strtok_tokens]. destruct (is_delim a).
    + by rewrite IH, app_assoc.
    + apply IH.
Qed.

Lemma lor_fold_accumulates {A} (f : A → option Z) (l : list A) (ret : Z) :
  foldl (λ ret m, match f m with Some v => Z.lor ret v | None => ret end)
    ret l
  = Z.lor ret (foldl (λ ret m, match f m with
                               | Some v => Z.lor ret v
                               | None => ret
                               end) 0 l).
Proof using Type.
  revert ret. induction l as [|m l IH]; intros ret.
  - cbn. by rewrite Z.lor_0_r.
  - cbn [foldl]. rewrite IH. rewrite (IH (match f m with
                                          | Some v => Z.lor 0 v
                                          | None => 0
                                          end)).
    destruct (f m) as [v|]; rewrite ?Z.lor_0_l, ?Z.lor_assoc; done.
Qed.

Lemma add_modifiers_lor (tmp : string) (ret : Z) :
  add_modifiers tmp ret = Z.lor ret (add_modifiers tmp 0).
Proof using Type.
  unfold add_modifiers.
  pose proof (lor_fold_accumulates
    (λ m : string * Z, if String.eqb m.1 tmp then Some m.2 else None)) as H.
  assert (Heq : ∀ l r,
    foldl (λ ret m, if String.eqb m.1 tmp then Z.lor ret m.2 else ret) r l =
    foldl (λ ret (m : string * Z),
             match (if String.eqb m.1 tmp then Some m.2 else None) with
             | Some v => Z.lor ret v
             | None => ret
             end) r l).
  { induction l as [|m l IH]; intros r; [done|]. cbn [foldl]. rewrite IH.
    by destruct (String.eqb m.1 tmp). }
  by rewrite !Heq, H.
Qed.

Lemma parse_fold_lor (l : list string) (ret : Z) :
  foldl (λ ret tmp, add_modifiers tmp ret) ret l
    = Z.lor ret (foldl (λ ret tmp, add_modifiers tmp ret) 0 l).
Proof using Type.
  revert ret. induction l as [|t l IH]; intros ret.
  - cbn. by rewrite Z.lor_0_r.
  - cbn [foldl]. rewrite IH, (IH (add_modifiers t 0)), add_modifiers_lor.
    by rewrite Z.lor_assoc.
Qed.

(** X20: modifier lists compose: the mask of two lists joined by [+] or
    [,] is the bitwise or of their masks, so neither the order of the names
    nor a repeated name matters. *)
Theorem parse_modifiers_join (s1 s2 : string) (d : Ascii.ascii) :
  is_delim d = true →
  parse_modifiers (s1 +:+ String d s2)
    = Z.lor (parse_modifiers s1) (parse_modifiers s2) ∧
  parse_modifiers (s1 +:+ String d s2) = parse_modifiers (s2 +:+ String d s1) ∧
  parse_modifiers (s1 +:+ String d s1) = parse_modifiers s1.
Proof using Type.
  intros Hd.
  assert (Hjoin : ∀ a b, parse_modifiers (a +:+ String d b)
                         = Z.lor (parse_modifiers a) (parse_modifiers b)).
  { intros a b. unfold parse_modifiers.
    by rewrite strtok_tokens_delim, foldl_app, parse_fold_lor. }
  split; [apply Hjoin|]. split.
  - by rewrite !Hjoin, Z.lor_comm.
  - by rewrite Hjoin, Z.lor_diag.
Qed.

Lemma lor_below_256 (a b : Z) :
  0 <= a < 256 → 0 <= b < 256 → 0 <= Z.lor a b < 256.
Proof using Type.
  intros Ha Hb. split; [apply Z.lor_nonneg; lia|].
  destruct (decide (Z.lor a b = 0)) as [->|Hne]; [lia|].
  assert (0 < Z.lor a b) by (pose proof (proj2 (Z.lor_nonneg a b)); lia).
  change 256 with (2 ^ 8). apply Z.log2_lt_pow2; [done|].
  rewrite Z.log2_lor by lia.
  assert (∀ z, 0 <= z < 256 → Z.log2 z < 8) as Hlog.
  { intros z Hz. destruct (decide (z = 0)) as [->|]; [done|].
    apply Z.log2_lt_pow2; lia. }
  pose proof (Hlog a Ha). pose proof (Hlog b Hb). lia.
Qed.

Lemma add_modifiers_below_256 (tmp : string) (ret : Z) :
  0 <= ret < 256 → 0 <= add_modifiers tmp ret < 256.
Proof using Type.
  unfold add_modifiers.
  assert (Hmask : Forall (λ m : string * Z, 0 <= m.2 < 256) modifiers)
    by (unfold modifiers;
        repeat (apply Forall_cons_2; [by compute|]); apply Forall_nil_2).
  revert ret Hmask. generalize modifiers.
  induction l as [|m l IH]; intros ret Hmask Hret; [done|].
  apply Forall_cons in Hmask as [Hm Hmask]. cbn [foldl]. apply IH; [done|].
  destruct (String.eqb m.1 tmp); [by apply lor_below_256|done].
Qed.

(** X21: the mask of any string only has modifier bits (it is below 256),
    and names that are not in the table are ignored: a string none of
    whose tokens is a modifier name gives 0, the empty string included. *)
Theorem parse_modifiers_range (s : string) :
  0 <= parse_modifiers s < 256 ∧
  (Forall (λ t, t ∉ modifiers.*1) (strtok_tokens "" s) →
   parse_modifiers s = 0) ∧
  parse_modifiers "" = 0.
Proof using Type.
  unfold parse_modifiers. split; [|split; [|done]].
  - assert (∀ l ret, 0 <= ret < 256 →
              0 <= foldl (λ ret tmp, add_modifiers tmp ret) ret l < 256)
      as Hfold.
    { induction l as [|t l IH]; intros ret Hret; [done|].
      cbn [foldl]. apply IH. by apply add_modifiers_below_256. }
    apply Hfold. lia.
  - induction 1 as [|t l Ht _ IH]; [done|]. cbn [foldl].
    replace (add_modifiers t 0) with 0; [done|].
    unfold add_modifiers. cbn [foldl modifiers fst snd].
    repeat match goal with
      | |- context [String.eqb ?a t] =>
          destruct (String.eqb_spec a t) as [<-|_];
            [destruct Ht; cbn;
             repeat first [apply list_elem_of_here
                          | apply list_elem_of_further]|]
      end.
    done.
Qed.

(** ** The information window *)

(** X22: the information window is kept on the screen.  Its position is
    never negative; and when it is not larger than the display and the
    sums of the client's geometry fit an [int], it does not reach beyond
    the right and bottom edges of the display. *)
Theorem update_info_window_on_screen (font : font_info) (info_window : Window)
    (name : option string) (c : client) (reqs : list info_request)
    (w ix iy iw ih : Z) :
  update_info_window font info_window name c = Some reqs →
  XMoveResizeWindow w ix iy iw ih ∈ reqs →
  let dw := DisplayWidth (s_screen (c_screen c)) in
  let dh := DisplayHeight (s_screen (c_screen c)) in
  (0 <= ix ∧ 0 <= iy) ∧
  (Int.in_range dw → iw <= dw →
   Int.in_range (x c + border c + width c) →
   Int.in_range (x c + border c + width c - iw) →
   ix + iw <= dw) ∧
  (Int.in_range dh → ih <= dh →
   Int.in_range (y c - border c) →
   Int.in_range (y c - border c + ih) →
   iy + ih <= dh).
Proof.
  unfold update_info_window. destruct (info_window =? 0);
    [intros [= <-] Hin; by apply elem_of_nil in Hin|].
  destruct (int_div_checked _ (width_inc c)) as [a|]; [|done].
  destruct (int_div_checked _ (height_inc c)) as [b|]; [|done].
  cbn [mbind option_bind]. intros [= <-] Hin.
  apply elem_of_cons in Hin as [Hin|Hin].
  2:{ apply elem_of_cons in Hin as [Hin|Hin]; [done|].
      apply elem_of_app in Hin as [Hin|Hin].
      - destruct name; [|by apply elem_of_nil in Hin].
        by apply list_elem_of_singleton in Hin.
      - by apply list_elem_of_singleton in Hin. }
  injection Hin as -> -> -> -> ->. cbv zeta.
  set (tw := match name with
             | Some n => if Int.add (XTextWidth font _) 2 <? XTextWidth font n
                         then Int.add (XTextWidth font n) 2
                         else Int.add (XTextWidth font _) 2
             | None => Int.add (XTextWidth font _) 2
             end).
  set (th := match name with
             | Some _ => Int.wrap (_ * 2)
             | None => Int.add (ascent font) (descent font)
             end).
  assert (Int.in_range tw) as Rtw
    by (subst tw; destruct name; try case_match; apply int_wrap_in_range).
  assert (Int.in_range th) as Rth
    by (subst th; destruct name; apply int_wrap_in_range).
  clearbody tw th.
  split; [split; case_match; try lia; by apply Z.ltb_ge|].
  unfold Int.in_range, Int.min_signed, Int.max_signed in *.
  split; intros Hd Hle H1 H2.
  - assert (Int.to_unsigned tw = tw ∧ 0 <= tw) as [Htw Hpos].
    { unfold Int.to_unsigned, Int.modulus in *.
      clear -Hd Hle H1 H2 Rtw. Z.div_mod_to_equations. lia. }
    rewrite Htw in *.
    repeat case_match;
      repeat match goal with
        | H : (_ <? _) = true |- _ => apply Z.ltb_lt in H
        | H : (_ <? _) = false |- _ => apply Z.ltb_ge in H
        end;
      clear -Hd Hle H1 H2 Hpos Rtw H H0;
      unfold Int.add, Int.sub, Int.wrap, Int.modulus in *;
      Z.div_mod_to_equations; lia.
  - assert (Int.to_unsigned th = th ∧ 0 <= th) as [Hth Hpos].
    { unfold Int.to_unsigned, Int.modulus in *.
      clear -Hd Hle H1 H2 Rth. Z.div_mod_to_equations. lia. }
    rewrite Hth in *.
    repeat case_match;
      repeat match goal with
        | H : (_ <? _) = true |- _ => apply Z.ltb_lt in H
        | H : (_ <? _) = false |- _ => apply Z.ltb_ge in H
        end;
      clear -Hd Hle H1 H2 Hpos Rth H H0;
      unfold Int.add, Int.sub, Int.wrap, Int.modulus in *;
      Z.div_mod_to_equations; lia.
Qed.


(** ** Selection and decoration *)

Lemma select_client_keeps_highlight (c : option ptr) (s : wm) :
  frames_distinct s → valid_in s (current s) → valid_in s c →
  only_selected_highlighted s →
  only_selected_highlighted
    (set_xlog (xlog s ++ issued s (select_requests s c)) (set_current c s)).
Proof.
  intros Hdist Hcur Hc Hinv q cq Hq Hnot.
  cbn [heap current xlog set_xlog set_current] in *.
  rewrite border_pixel_of_app. unfold select_requests, issued.
  assert (Hother : ∀ o co, heap s !! o = Some co → o ≠ q →
            (parent co =? parent cq) = false).
  { intros o co Ho Hne. apply Z.eqb_neq. by eapply Hdist. }
  pose proof (Hinv q cq Hq) as Hold.
  destruct (current s) as [o|] eqn:Ho.
  - destruct Hcur as [co Hco]. cbn [mbind option_bind]. rewrite Hco.
    destruct c as [p|].
    + destruct Hc as [cp Hcp]. cbn [mbind option_bind]. rewrite Hcp.
      assert (p ≠ q) by congruence.
      cbn [app fmap list_fmap border_pixel_of].
      rewrite (Hother p cp Hcp) by done.
      destruct (decide (o = q)) as [->|Hoq].
      * assert (co = cq) as -> by congruence. rewrite Z.eqb_refl. by right.
      * rewrite (Hother o co Hco) by done. apply Hold; congruence.
    + cbn [mbind option_bind app fmap list_fmap border_pixel_of].
      destruct (decide (o = q)) as [->|Hoq].
      * assert (co = cq) as -> by congruence. rewrite Z.eqb_refl. by right.
      * rewrite (Hother o co Hco) by done. apply Hold; congruence.
  - cbn [mbind option_bind]. destruct c as [p|].
    + destruct Hc as [cp Hcp]. cbn [mbind option_bind]. rewrite Hcp.
      assert (p ≠ q) by congruence.
      cbn [app fmap list_fmap border_pixel_of].
      rewrite (Hother p cp Hcp) by done. by apply Hold.
    + cbn [mbind option_bind app fmap list_fmap border_pixel_of].
      by apply Hold.
Qed.

(** X24: selection is exclusive on the screen, too.  When different
    clients have different frames and no client but the selected one has
    a frame in another colour than the inactive one, this still holds
    after any sequence of [select_client] calls. *)
Theorem select_clients_keep_highlight (l : list (option ptr)) (s : wm) :
  frames_distinct s → valid_in s (current s) → Forall (valid_in s) l →
  only_selected_highlighted s →
  ∃ s', select_clients l s = Some (tt, s') ∧ only_selected_highlighted s'.
Proof.
  revert s. induction l as [|c l IH]; intros s Hdist Hcur Hl Hinv.
  - by exists s.
  - apply Forall_cons in Hl as [Hc Hl].
    cbn [select_clients]. rewrite bind_run, select_client_run by done.
    apply IH; [done..|]. by apply select_client_keeps_highlight.
Qed.

(** ** The order of the requests of remove_client *)

(** X25: [remove_client] reparents the window to the root before it
    destroys the frame, so that the window is never destroyed with its
    frame; the frame is destroyed once, and only if the client has one
    ([c->parent] is not 0). *)
Theorem remove_client_reparents_first (p : ptr) (s : wm) (c : client) :
  heap s !! p = Some c →
  ∃ s' new,
    remove_client p s = Some (tt, s') ∧ xlog s' = xlog s ++ new ∧
    (parent c ≠ 0 →
     ∃ before between after,
       new = before ++ [(1, XReparentWindow (window c) (root (c_screen c))
                              (x (undo_geometry c)) (y (undo_geometry c)))]
             ++ between ++ [(1, XDestroyWindow (parent c))] ++ after ∧
       select_entries is_destroy_request (before ++ between ++ after) = []) ∧
    (parent c = 0 → select_entries is_destroy_request new = []).
Proof.
  intros Hp. eexists _, _. split; [by apply remove_client_run|].
  unfold removed. cbn [xlog]. split; [reflexivity|].
  pose proof (undo_geometry_frame c) as (HW & HP & HS & _).
  unfold remove_requests, select_entries. cbv zeta. rewrite HW, HP, HS.
  split.
  - intros Hpar. apply Z.eqb_neq in Hpar. rewrite Hpar. cbn [negb].
    destruct (negb (remove c =? 0)), (bool_decide (Some p = current s)),
      (negb (remove (undo_geometry c) =? 0)),
      (bool_decide (current s = Some p));
      cbn [app fmap list_fmap];
      first
        [ eexists [_], [_; _], _; split; [reflexivity|reflexivity]
        | eexists [_; _], [_; _], _; split; [reflexivity|reflexivity]
        | eexists [_; _; _], [_; _], _; split; [reflexivity|reflexivity]
        | eexists [_; _; _; _], [_; _], _; split; [reflexivity|reflexivity] ].
  - intros Hpar. rewrite Hpar. cbn [Z.eqb negb].
    destruct (negb (remove c =? 0)), (bool_decide (Some p = current s)),
      (negb (remove (undo_geometry c) =? 0)),
      (bool_decide (current s = Some p)); reflexivity.
Qed.

End Client.

(** ** The statements on the concrete display *)

(** C1 on [client_se]: the window is put back at (10,10). *)
Lemma remove_client_geometry_witness :
  ∃ s' new,
    remove_client width_1024 height_768 1%positive wm_two = Some (tt, s') ∧
    xlog s' = xlog wm_two ++ new ∧
    reparents new = [(100, 1, 10, 10)].
Proof.
  destruct (remove_client_geometry width_1024 height_768 1%positive wm_two
              client_se eq_refl) as (Hrun & _ & Hse).
  destruct (Hse eq_refl eq_refl eq_refl eq_refl eq_refl eq_refl eq_refl)
    as (_ & _ & Hxy & _).
  destruct Hrun as (s' & new & Hs' & Hlog & Hrep).
  exists s', new. split; [exact Hs'|]. split; [exact Hlog|].
  rewrite Hrep. exact (f_equal (λ xy, [(100, 1, xy.1, xy.2)]) Hxy).
Defined.

Ltac int_range :=
  unfold Int.in_range, Int.min_signed, Int.max_signed; cbn; lia.

(** C2 on [client_se] with border delta 2: south-east moves it by (-2,-2);
    gravity value 0 is treated as north-west. *)
Lemma client_gravitate_table_witness :
  (x (client_gravitate width_1024 height_768 client_se 2),
   y (client_gravitate width_1024 height_768 client_se 2)) = (8, 8) ∧
  effective_gravity ForgetGravity = NorthWest.
Proof.
  destruct (client_gravitate_table width_1024 height_768 client_se 2)
    as [(_ & _ & _ & _ & _ & _ & _ & _ & _ & Hdefault) Htable].
  split.
  - exact (f_equal (λ c, (x c, y c)) Htable).
  - apply Hdefault. left. reflexivity.
Defined.

(** C3 on [client_se] with border 2. *)
Lemma gravitate_inverse_witness :
  x (client_gravitate width_1024 height_768
       (client_gravitate width_1024 height_768 client_se 2) (Int.neg 2)) = 10 ∧
  y (client_gravitate width_1024 height_768
       (client_gravitate width_1024 height_768 client_se 2) (Int.neg 2)) = 10.
Proof.
  apply (gravitate_inverse width_1024 height_768 client_se 2);
    [int_range | int_range | reflexivity..].
Defined.

(** The exception of C3 is needed: a client that [client_gravitate c 5]
    moves to x = 0 while it spans the display is not moved back. *)
Example gravitate_inverse_needs_exception :
  let c := mk_client 1 2 (-5) 10 1024 50 0 0 NorthWestGravity 0 0 in
  x (client_gravitate width_1024 height_768
       (client_gravitate width_1024 height_768 c 5) (Int.neg 5)) = 0.
Proof. reflexivity. Qed.

(** C4 on hints with nothing set. *)
Lemma get_wm_normal_hints_no_min_witness :
  let c' := (get_wm_normal_hints hints_none client_nw).2 in
  (width_inc c', height_inc c') = (1, 1) ∧
  (base_width c', base_height c') = (0, 0) ∧
  (min_width c', min_height c') = (1, 1) ∧
  (max_width c', max_height c') = (0, 0).
Proof.
  destruct (get_wm_normal_hints_no_min hints_none client_nw eq_refl)
    as (_ & Hdefaults & _).
  exact (Hdefaults eq_refl eq_refl eq_refl).
Defined.

(** C10 on a minimum of 100x100 and a maximum of 50x50. *)
Lemma get_wm_normal_hints_min_max_verbatim_witness :
  let c' := (get_wm_normal_hints hints_min_above_max client_nw).2 in
  (min_width c', min_height c', max_width c', max_height c') =
    (100, 100, 50, 50) ∧
  max_width c' < min_width c' ∧ max_height c' < min_height c'.
Proof.
  destruct (get_wm_normal_hints_min_max_verbatim hints_min_above_max
              client_nw eq_refl eq_refl)
    as (Hminw & Hminh & Hmaxw & Hmaxh & Hw & Hh & _).
  cbv zeta. split; [by rewrite Hminw, Hminh, Hmaxw, Hmaxh|].
  split; [apply Hw | apply Hh]; reflexivity.
Defined.

(** C5: desktop 99 is not valid and nothing happens; desktop 3 is, and
    the client ends on it. *)
Lemma client_to_vdesk_spec_witness :
  client_to_vdesk fixed_ffffffff eight_vdesks 1%positive 99 wm_two
    = Some (tt, wm_two) ∧
  ∃ s', client_to_vdesk fixed_ffffffff eight_vdesks 1%positive 3 wm_two
          = Some (tt, s') ∧
        vdesk <$> heap s' !! 1%positive = Some 3 ∧
        current s' = None.
Proof.
  split.
  - exact (proj1 (client_to_vdesk_spec fixed_ffffffff eight_vdesks
                    1%positive 99 wm_two) eq_refl).
  - destruct (proj2 (client_to_vdesk_spec fixed_ffffffff eight_vdesks
                       1%positive 3 wm_two) eq_refl client_se eq_refl I)
      as (s0 & s1 & s2 & s' & _ & _ & _ & _ & Hrun & Hvdesk & Hcur).
    exists s'. split; [exact Hrun|]. split; [exact Hvdesk|]. exact Hcur.
Defined.

(** C6 on three monitors at x = 0, 100 and 200, each 100 wide: a client
    centered at x = 150 is on the second one, a client centered at x = 500
    on monitor 0. *)
Lemma client_monitor_first_match_witness :
  client_monitor client_mid_150 = 1%nat ∧
  client_monitor client_mid_500 = 0%nat.
Proof.
  split.
  - destruct (client_monitor_first_match client_mid_150)
      as (_ & Hfirst & _ & _ & _).
    apply (Hfirst 1%nat (Monitor 100 0 100 100)); [reflexivity..|].
    intros j m' Hj Hlt. destruct j as [|j]; [|lia].
    injection Hj as <-. reflexivity.
  - destruct (client_monitor_first_match client_mid_500)
      as (_ & _ & Hnone & _ & _).
    apply Hnone. intros m Hm.
    repeat (apply elem_of_cons in Hm as [->|Hm]; [reflexivity|]).
    by apply elem_of_nil in Hm.
Defined.

(** C9 on the edge x = 100 shared by the first two monitors. *)
Lemma client_monitor_half_open_witness :
  is_inside 100 45 (Monitor 100 0 100 100) = true ∧
  is_inside 100 45 (Monitor 0 0 100 100) = false ∧
  client_monitor client_mid_100 = 1%nat.
Proof.
  destruct (client_monitor_half_open 100 45 (Monitor 100 0 100 100))
    as (_ & Hleft & _ & _ & _ & Hadjacent); [int_range..|].
  destruct (client_monitor_half_open 100 45 (Monitor 0 0 100 100))
    as (_ & _ & _ & Hright & _); [int_range..|].
  split; [apply Hleft; cbn; lia|]. split; [apply Hright; reflexivity|].
  apply (Hadjacent client_mid_100 (Monitor 0 0 100 100) 0%nat 1%nat);
    [reflexivity.. | int_range | int_range | left; cbn; lia |].
  intros k m' Hk Hlt Hne. lia.
Defined.

(** C7 on [wm_two]: after selecting client 1 and then client 2, the frame
    of client 1 has the inactive colour, the frame of client 2 the active
    colour, client 2 is selected and client 1 is not. *)
Lemma select_client_exclusive_witness :
  (∃ s', select_clients fixed_ffffffff
           [Some 1%positive; None; Some 2%positive] wm_two = Some (tt, s') ∧
         current s' = Some 2%positive) ∧
  ∃ s1 s2,
    select_client fixed_ffffffff (Some 1%positive) wm_two = Some (tt, s1) ∧
    select_client fixed_ffffffff (Some 2%positive) s1 = Some (tt, s2) ∧
    border_pixel_of (xlog s2) 101 = Some 12 ∧
    border_pixel_of (xlog s2) 201 = Some 11 ∧
    selected s2 2%positive ∧ ¬ selected s2 1%positive.
Proof.
  destruct (select_client_exclusive fixed_ffffffff wm_two I)
    as [Hseq Hpair].
  split.
  - destruct (Hseq [Some 1%positive; None; Some 2%positive])
      as (s' & Hrun & Hlast & _).
    + repeat constructor; cbn; by eexists.
    + exists s'. split; [exact Hrun | exact Hlast].
  - destruct (Hpair 1%positive 2%positive client_se client_nw eq_refl eq_refl)
      as (s1 & s2 & H1 & H2 & _ & Hsel & Hcolours).
    destruct Hcolours as (Ha & Hb & Hnot); [discriminate..|].
    exists s1, s2. repeat split; assumption.
Defined.

(** C8 on [wm_two]: client 1 is removed, the flush is requested with
    [ignore_xerror] at 1 and the flag is 0 afterwards. *)
Lemma remove_client_flush_then_reenable_witness :
  ∃ s' pre,
    remove_client width_1024 height_768 1%positive wm_two = Some (tt, s') ∧
    xlog s' = xlog wm_two ++ pre ++ [(1, XUngrabServer); (1, XSync False_)] ∧
    ((0, XSync False_) ∉ pre) ∧
    ignore_xerror s' = 0.
Proof.
  exact (remove_client_flush_then_reenable width_1024 height_768 1%positive
           wm_two client_se eq_refl).
Defined.

(** C8 as the specification words it fails: on [wm_two] the flush of
    [remove_client] is not requested with errors re-enabled. *)
Lemma remove_client_does_not_reenable_first :
  ¬ flushes_after_reenabling width_1024 height_768 1%positive wm_two.
Proof.
  intros (s' & new & Hrun & Hlog & Hin).
  rewrite (remove_client_run width_1024 height_768 1%positive wm_two client_se)
    in Hrun by reflexivity.
  injection Hrun as <-. cbn [xlog removed wm_two app] in Hlog. subst new.
  vm_compute in Hin.
  repeat (apply elem_of_cons in Hin as [Hin|Hin]; [discriminate Hin|]).
  by apply elem_of_nil in Hin.
Qed.

(** ** The further properties on the concrete display *)

(** X1 on [client_se]: borders 2 and then 3 move it as border 5 does. *)
Lemma client_gravitate_compose_witness :
  x (client_gravitate width_1024 height_768
       (client_gravitate width_1024 height_768 client_se 2) 3) = 5 ∧
  x (client_gravitate width_1024 height_768 client_se (Int.add 2 3)) = 5.
Proof.
  destruct (client_gravitate_compose width_1024 height_768 client_se 2 3)
    as [Hx _]; [reflexivity..|].
  split; [rewrite Hx|]; reflexivity.
Defined.

(** X2 on [client_max]. *)
Lemma client_gravitate_maximised_stays_witness :
  x (foldl (client_gravitate width_1024 height_768) client_max [1; -1; 7]) = 0 ∧
  y (foldl (client_gravitate width_1024 height_768) client_max [1; -1; 7]) = 0.
Proof.
  destruct (client_gravitate_maximised_stays width_1024 height_768
              client_max [1; -1; 7]) as [Hx Hy].
  split; [apply Hx | apply Hy]; reflexivity.
Defined.

(** X3 on [client_se]: south-east, border 2, original border 1. *)
Lemma undo_geometry_closed_form_witness :
  x (undo_geometry width_1024 height_768 client_se) = 10 ∧
  y (undo_geometry width_1024 height_768 client_se) = 10.
Proof.
  destruct (undo_geometry_closed_form width_1024 height_768 client_se)
    as [[Hx Hy] _]; [reflexivity..|].
  split; [rewrite Hx | rewrite Hy]; reflexivity.
Defined.

(** X4 on a resize-increment hint of (0, 7). *)
Lemma get_wm_normal_hints_inc_nonzero_witness :
  width_inc (get_wm_normal_hints hints_zero_inc client_nw).2 = 1 ∧
  height_inc (get_wm_normal_hints hints_zero_inc client_nw).2 = 7.
Proof.
  destruct (get_wm_normal_hints_inc_nonzero hints_zero_inc client_nw)
    as (_ & Hinc & _).
  destruct (Hinc eq_refl) as (_ & Hh & Hw & _).
  split; [apply Hw; reflexivity | apply Hh; discriminate].
Defined.

(** X5 on the three monitors. *)
Lemma client_monitor_sound_witness :
  (client_monitor client_mid_500 < 3)%nat.
Proof.
  destruct (client_monitor_sound client_mid_500) as [Hbound _].
  apply Hbound. discriminate.
Defined.

Lemma three_monitors_disjoint (j k : nat) (mj mk : monitor) (px py : Z) :
  three_monitors !! j = Some mj → three_monitors !! k = Some mk → j ≠ k →
  is_inside px py mj = true → is_inside px py mk = false.
Proof.
  intros Hj Hk Hne Hin.
  assert (Hiff : ∀ m, m ∈ three_monitors →
            ∀ b, is_inside px py m = b ↔
                 (if b then rect_contains m px py
                  else ¬ rect_contains m px py)).
  { intros m Hm b.
    assert (Int.in_range (m_x m + m_width m) ∧
            Int.in_range (m_y m + m_height m)) as [H1 H2].
    { unfold three_monitors in Hm.
      repeat (apply elem_of_cons in Hm as [->|Hm];
              [split; unfold Int.in_range, Int.min_signed, Int.max_signed;
               cbn; lia|]).
      by apply elem_of_nil in Hm. }
    destruct b; [by apply is_inside_rect_contains
                |by apply is_inside_false_iff]. }
  apply (Hiff mj (list_elem_of_lookup_2 _ _ _ Hj) true) in Hin.
  apply (Hiff mk (list_elem_of_lookup_2 _ _ _ Hk) false).
  unfold rect_contains in *.
  destruct j as [|[|[|j]]], k as [|[|[|k]]]; try done;
    injection Hj as <-; injection Hk as <-; cbn in *; lia.
Qed.

(** X6 on the three monitors. *)
Lemma client_monitor_disjoint_witness :
  client_monitor client_mid_150 = 1%nat.
Proof.
  apply (client_monitor_disjoint client_mid_150 1%nat (Monitor 100 0 100 100));
    [apply three_monitors_disjoint | reflexivity | reflexivity].
Defined.

Lemma wm_two_allocated : tab_order_allocated wm_two.
Proof. repeat constructor; by eexists. Qed.

Lemma wm_two_handles_distinct : handles_distinct wm_two.
Proof.
  intros i j p q cp cq Hi Hj Hp Hq Hne.
  destruct i as [|[|i]], j as [|[|j]]; try done;
    injection Hi as <-; injection Hj as <-;
    injection Hp as <-; injection Hq as <-; by compute.
Qed.

(** X7 on [wm_two]: window 201 is the frame of client 2, window 7 is
    nobody's. *)
Lemma find_client_first_witness :
  find_client 201 wm_two = Some (Some 2%positive, wm_two) ∧
  find_client 7 wm_two = Some (None, wm_two).
Proof.
  destruct (find_client_first 201 wm_two wm_two_allocated) as (r1 & H1 & Hr1).
  destruct (find_client_first 7 wm_two wm_two_allocated) as (r2 & H2 & Hr2).
  rewrite H1, H2. split.
  - destruct r1 as [p|].
    + destruct Hr1 as (i & Hi & Hh & _).
      destruct i as [|[|i]]; [| |discriminate Hi]; injection Hi as <-;
        [discriminate Hh | reflexivity].
    + specialize (Hr1 2%positive
                    (list_elem_of_further _ _ _ (list_elem_of_here _ _))).
      discriminate Hr1.
  - destruct r2 as [p|]; [|reflexivity].
    destruct Hr2 as (i & Hi & Hh & _).
    destruct i as [|[|i]]; [| |discriminate Hi]; injection Hi as <-;
      discriminate Hh.
Defined.

(** X8 on [wm_two]. *)
Lemma find_client_unique_witness :
  find_client 100 wm_two = Some (Some 1%positive, wm_two) ∧
  find_client 101 wm_two = Some (Some 1%positive, wm_two).
Proof.
  apply (find_client_unique wm_two 1%positive client_se
           wm_two_allocated wm_two_handles_distinct);
    [apply list_elem_of_here | reflexivity].
Defined.

(** X9: a window that lists [WM_DELETE_WINDOW] is asked to close. *)
Lemma send_wm_delete_graceful_iff_witness :
  send_wm_delete atoms_0 (Some [7; 301]) client_se 0
    = XSendEvent_ClientMessage 100 0 0 100 300 32 301 0 ∧
  send_wm_delete atoms_0 (Some [7; 301]) client_se 1 ≠
    XSendEvent_ClientMessage 100 0 0 100 300 32 301 0.
Proof.
  assert (Hlen : ∀ l : list Z, Some [7; 301] = Some l →
                   Z.of_nat (length l) <= Int.max_signed)
    by (intros l [= <-]; by compute).
  destruct (send_wm_delete_graceful_iff atoms_0 (Some [7; 301]) client_se 0
              Hlen) as [_ Hiff0].
  destruct (send_wm_delete_graceful_iff atoms_0 (Some [7; 301]) client_se 1
              Hlen) as [_ Hiff1].
  split.
  - apply Hiff0. split; [reflexivity|]. exists [7; 301]. split; [reflexivity|].
    apply list_elem_of_further, list_elem_of_here.
  - intros Heq. apply Hiff1 in Heq as [Hk _]. discriminate Hk.
Defined.


(** X11 on [wm_two_selected]: client 1 keeps the active colour 11. *)
Lemma select_client_again_witness :
  ∃ s', select_client fixed_ffffffff (Some 1%positive) wm_two_selected
          = Some (tt, s') ∧
        current s' = Some 1%positive ∧
        border_pixel_of (xlog s') 101 = Some 11.
Proof.
  exact (select_client_again fixed_ffffffff wm_two_selected 1%positive
           client_se eq_refl eq_refl).
Defined.

(** X12 on [wm_two_selected]: fixing the selected client gives its frame
    the fixed colour 13. *)
Lemma client_to_vdesk_repaints_selected_witness :
  ∃ s', client_to_vdesk fixed_ffffffff eight_vdesks 1%positive
          fixed_ffffffff wm_two_selected = Some (tt, s') ∧
        current s' = Some 1%positive ∧
        border_pixel_of (xlog s') 101 = Some 13.
Proof.
  exact (client_to_vdesk_repaints_selected fixed_ffffffff eight_vdesks
           1%positive fixed_ffffffff wm_two_selected client_se
           eq_refl eq_refl eq_refl).
Defined.

(** X13 on [wm_two]: on desktop 5, while the screen shows desktop 2,
    client 1 is iconic and its unmap counter is 1. *)
Lemma client_to_vdesk_visibility_witness :
  ∃ s', client_to_vdesk fixed_ffffffff eight_vdesks 1%positive 5 wm_two
          = Some (tt, s') ∧
        (ignore_unmap <$> heap s' !! 1%positive) = Some 1 ∧
        wm_state_of (xlog s') 100 = Some IconicState.
Proof.
  destruct (client_to_vdesk_visibility fixed_ffffffff eight_vdesks 1%positive
              5 wm_two client_se eq_refl eq_refl I)
    as (s' & Hrun & Hheap & _ & _ & _ & Hstate).
  exists s'. split; [exact Hrun|]. split; [|exact Hstate].
  rewrite Hheap. reflexivity.
Defined.


(** X15 on [wm_two_selected]: removing the selected client 1 clears the
    selection, and client 2 can be selected afterwards. *)
Lemma remove_client_frees_witness :
  ∃ s' s'',
    remove_client width_1024 height_768 1%positive wm_two_selected
      = Some (tt, s') ∧
    current s' = None ∧ heap s' !! 1%positive = None ∧
    (remove_client width_1024 height_768 1%positive;;
     select_client fixed_ffffffff (Some 2%positive)) wm_two_selected
      = Some (tt, s'') ∧
    current s'' = Some 2%positive.
Proof.
  destruct (remove_client_frees width_1024 height_768 fixed_ffffffff
              1%positive wm_two_selected client_se eq_refl)
    as (s' & Hrun & Hheap & Hcur & _ & _ & Hselect).
  - by eexists.
  - destruct (Hselect 2%positive client_nw) as (s'' & Hrun2 & Hcur2 & _);
      [discriminate | reflexivity |].
    exists s', s''. split; [exact Hrun|]. split; [exact Hcur|].
    split; [by rewrite Hheap|]. split; [exact Hrun2 | exact Hcur2].
Defined.

(** X16 on [wm_two]. *)
Lemma remove_client_suppression_window_witness :
  ∃ s' rest,
    remove_client width_1024 height_768 1%positive wm_two = Some (tt, s') ∧
    xlog s' = (0, XGrabServer) :: rest ∧
    Forall (λ e, e.1 = 1) rest.
Proof.
  destruct (remove_client_suppression_window width_1024 height_768
              1%positive wm_two client_se eq_refl)
    as (s' & rest & Hrun & Hlog & Hall & _).
  exists s', rest. split; [exact Hrun|]. split; [exact Hlog | exact Hall].
Defined.

(** X17 on [wm_quit]. *)
Lemma remove_client_quitting_witness :
  ∃ s', remove_client width_1024 height_768 1%positive wm_quit
          = Some (tt, s') ∧
        wm_state_of (xlog s') 100 = None.
Proof.
  destruct (remove_client_quitting width_1024 height_768 1%positive wm_quit
              client_quit eq_refl eq_refl)
    as (s' & new & Hrun & _ & Hstate & _).
  exists s'. split; [exact Hrun|]. by rewrite Hstate.
Defined.

(** X18 on [wm_two_selected]: the focus goes to [PointerRoot]. *)
Lemma remove_client_withdrawing_witness :
  ∃ s' new,
    remove_client width_1024 height_768 1%positive wm_two_selected
      = Some (tt, s') ∧
    xlog s' = xlog wm_two_selected ++ new ∧
    wm_state_of (xlog s') 100 = Some WithdrawnState ∧
    select_entries is_focus_request new = [(1, XSetInputFocus 1 1 0)].
Proof.
  destruct (remove_client_withdrawing width_1024 height_768 1%positive
              wm_two_selected client_se eq_refl)
    as (s' & new & Hrun & Hlog & Hstate & _ & Hfocus & _); [discriminate|].
  exists s', new. split; [exact Hrun|]. split; [exact Hlog|].
  split; [exact Hstate | exact Hfocus].
Defined.

(** X19 on [wm_two]. *)
Lemma wm_state_two_values_kept_witness :
  ∃ s', remove_client width_1024 height_768 1%positive wm_two = Some (tt, s') ∧
        wm_state_two_values (xlog s').
Proof.
  destruct (wm_state_two_values_kept width_1024 height_768 fixed_ffffffff
              eight_vdesks 1%positive wm_two client_se eq_refl I)
    as (_ & _ & _ & _ & Hremove).
  - intros ign w data Hin. by apply elem_of_nil in Hin.
  - eexists. split; [by apply (remove_client_run _ _ _ _ client_se)|].
    apply Hremove. by apply (remove_client_run _ _ _ _ client_se).
Defined.

(** X20: "control+alt" is "control" or-ed with "alt". *)
Lemma parse_modifiers_join_witness :
  parse_modifiers "control+alt" = 12 ∧
  parse_modifiers "alt+control" = 12.
Proof.
  destruct (parse_modifiers_join "control" "alt" "+"%char eq_refl)
    as (Hjoin & Hswap & _).
  split; [exact Hjoin|].
  transitivity (parse_modifiers ("control" +:+ String "+"%char "alt"));
    [symmetry; exact Hswap | exact Hjoin].
Defined.

(** X21: unknown names are ignored. *)
Lemma parse_modifiers_range_witness :
  parse_modifiers "meta,hyper" = 0.
Proof.
  destruct (parse_modifiers_range "meta,hyper") as (_ & Hunknown & _).
  apply Hunknown.
  repeat (apply Forall_cons_2;
          [intros Hin;
           repeat (apply elem_of_cons in Hin as [Hin|Hin];
                   [discriminate Hin|]);
           by apply elem_of_nil in Hin|]).
  apply Forall_nil_2.
Defined.

(** X22 on [client_se] with the name "xterm": the information window is
    68 wide and would start at x = -6; it is put at 0. *)
Lemma update_info_window_on_screen_witness :
  update_info_window width_1024 height_768 font_6x13 9 (Some "xterm"%string)
    client_se
    = Some [XMoveResizeWindow 9 0 8 68 26; XClearWindow 9;
            XDrawString 9 1 12 "xterm" 5;
            XDrawString 9 1 25 "50x50+10+10" 11] ∧
  0 <= 0 ∧ 0 + 68 <= 1024 ∧ 8 + 26 <= 768.
Proof.
  split; [by vm_compute|].
  destruct (update_info_window_on_screen width_1024 height_768 font_6x13 9
              (Some "xterm"%string) client_se
              [XMoveResizeWindow 9 0 8 68 26; XClearWindow 9;
               XDrawString 9 1 12 "xterm" 5;
               XDrawString 9 1 25 "50x50+10+10" 11]
              9 0 8 68 26)
    as ((Hx & _) & Hright & Hbottom);
    [by vm_compute | apply list_elem_of_here |].
  split; [exact Hx|]. split.
  - apply Hright; by vm_compute.
  - apply Hbottom; by vm_compute.
Defined.


Lemma wm_two_lookup (q : ptr) (c : client) :
  heap wm_two !! q = Some c →
  (q = 1%positive ∧ c = client_se) ∨ (q = 2%positive ∧ c = client_nw).
Proof.
  unfold wm_two. cbn [heap]. rewrite !lookup_insert.
  repeat case_decide; subst; rewrite ?lookup_empty;
    intros [= <-] || intros [=]; auto.
Qed.

Lemma wm_two_frames_distinct : frames_distinct wm_two.
Proof.
  intros q1 q2 c1 c2 H1 H2 Hne.
  apply wm_two_lookup in H1 as [[-> ->]|[-> ->]];
    apply wm_two_lookup in H2 as [[-> ->]|[-> ->]]; done.
Qed.

(** X24 on [wm_two]: after selecting client 1 and then client 2, the
    frame 101 of client 1 has the inactive colour 12. *)
Lemma select_clients_keep_highlight_witness :
  ∃ s', select_clients fixed_ffffffff [Some 1%positive; Some 2%positive]
          wm_two = Some (tt, s') ∧
        border_pixel_of (xlog s') 101 = Some 12.
Proof.
  destruct (select_clients_keep_highlight fixed_ffffffff
              [Some 1%positive; Some 2%positive] wm_two)
    as (s' & Hrun & Hinv).
  - apply wm_two_frames_distinct.
  - exact I.
  - repeat (apply Forall_cons_2; [by eexists|]). apply Forall_nil_2.
  - intros q c _ _. by left.
  - exists s'. split; [exact Hrun|].
    assert (Hheap : heap s' !! 1%positive = Some client_se ∧
                    current s' = Some 2%positive ∧
                    border_pixel_of (xlog s') 101 ≠ None).
    { vm_compute in Hrun. injection Hrun as <-. by vm_compute. }
    destruct Hheap as (Hheap & Hcur & Hsome).
    destruct (Hinv 1%positive client_se Hheap) as [Hnone|Hbg];
      [by rewrite Hcur | done | exact Hbg].
Defined.

(** X25 on [wm_two]: window 100 goes back to the root window 1 before the
    frame 101 is destroyed. *)
Lemma remove_client_reparents_first_witness :
  ∃ s' before between after,
    remove_client width_1024 height_768 1%positive wm_two = Some (tt, s') ∧
    xlog s' = before ++ [(1, XReparentWindow 100 1 10 10)] ++ between
              ++ [(1, XDestroyWindow 101)] ++ after.
Proof.
  destruct (remove_client_reparents_first width_1024 height_768 1%positive
              wm_two client_se eq_refl)
    as (s' & new & Hrun & Hlog & Horder & _).
  destruct Horder as (before & between & after & Hnew & _); [discriminate|].
  exists s', before, between, after. split; [exact Hrun|].
  rewrite Hlog, Hnew. reflexivity.
Defined.
